(** * excel_writer: a worksheet writer and its totals highlighter

    Shallow embedding of [src/excel_writer.py]:
    - [create_workbook] writes a pandas DataFrame into an openpyxl worksheet,
      with title-cased headers, date and currency directives, a table
      overlay and automatic column widths;
    - [format_totals] makes every row whose first cell contains "Total"
      bold and filled;
    - the module-level loop that saves the workbook and retries on
      [PermissionError].

    The two libraries are modelled by the behaviour the script relies on:
    a DataFrame is an ordered list of named columns, a worksheet is the
    dictionary of cells keyed by (row, column) that openpyxl keeps, with
    [max_row] and [max_column] computed from its keys.  Text is 7-bit ASCII:
    a [string] is a sequence of characters and only [A-Z] and [a-z] are
    cased. *)

From Stdlib Require Import ZArith String Ascii List Bool Lia PrimFloat Uint63.
From stdpp Require Import base option list gmap strings pretty.

Local Open Scope string_scope.
Local Open Scope list_scope.
Local Open Scope nat_scope.

(** ** Python values and exceptions *)

Inductive exn :=
| KeyError
| IndexError
| AttributeError
| TypeError
| ValueError
| PermissionError
| EOFError
| OSError.


Inductive outcome (A : Type) :=
| Ok (a : A)
| Raise (e : exn).
Arguments Ok {A} a.
Arguments Raise {A} e.

(** A pandas [Timestamp], by its calendar fields. *)
Record Timestamp := {
  year : nat;
  month : nat;
  day : nat;
  hour : nat;
  minute : nat;
  second : nat
}.

(** The values a DataFrame entry or a worksheet cell holds. *)
Inductive pyval :=
| VNone
| VStr (s : string)
| VInt (z : Z)
| VFloat (f : float)
| VBool (b : bool)
| VDate (t : Timestamp)
| VNaT.

(** ** Strings *)

Definition is_upper (c : ascii) : bool :=
  (65 <=? nat_of_ascii c) && (nat_of_ascii c <=? 90).

Definition is_lower (c : ascii) : bool :=
  (97 <=? nat_of_ascii c) && (nat_of_ascii c <=? 122).

Definition is_cased (c : ascii) : bool := is_upper c || is_lower c.

Definition to_upper (c : ascii) : ascii :=
  if is_lower c then ascii_of_nat (nat_of_ascii c - 32) else c.

Definition to_lower (c : ascii) : ascii :=
  if is_upper c then ascii_of_nat (nat_of_ascii c + 32) else c.

(** [str.title()]: a character that follows a cased character is
    lower-cased, any other character is upper-cased. *)
Fixpoint title_from (previous_is_cased : bool) (s : string) : string :=
  match s with
  | EmptyString => EmptyString
  | String c rest =>
      String (if previous_is_cased then to_lower c else to_upper c)
             (title_from (is_cased c) rest)
  end.

Definition str_title (s : string) : string := title_from false s.

(** [needle in hay] for two strings. *)
Fixpoint contains (needle hay : string) : bool :=
  String.prefix needle hay ||
  match hay with
  | EmptyString => false
  | String _ rest => contains needle rest
  end.

(** [needle in v]: only a string supports the test. *)
Definition py_contains (needle : string) (v : pyval) : outcome bool :=
  match v with
  | VStr s => Ok (contains needle s)
  | _ => Raise TypeError
  end.

(** [len(v)] *)
Definition py_len (v : pyval) : outcome nat :=
  match v with
  | VStr s => Ok (String.length s)
  | _ => Raise TypeError
  end.

Definition digit (d : nat) : ascii := ascii_of_nat (48 + d mod 10).

Definition pad2 (n : nat) : string :=
  String (digit (n / 10)) (String (digit n) EmptyString).

Definition pad4 (n : nat) : string :=
  String (digit (n / 1000)) (String (digit (n / 100)) (pad2 n)).

(** [t.strftime("%m/%d/%Y")] *)
Definition strftime_mdY (t : Timestamp) : string :=
  pad2 (month t) +:+ "/" +:+ pad2 (day t) +:+ "/" +:+ pad4 (year t).

(** [str(t)] for a Timestamp without fractional seconds. *)
Definition str_timestamp (t : Timestamp) : string :=
  pad4 (year t) +:+ "-" +:+ pad2 (month t) +:+ "-" +:+ pad2 (day t) +:+ " " +:+
  pad2 (hour t) +:+ ":" +:+ pad2 (minute t) +:+ ":" +:+ pad2 (second t).

Section Str.
(** [repr] of a float (the shortest decimal that reads back) is left to the
    host. *)
Variable float_repr : float -> string.

(** [str(v)] *)
Definition py_str (v : pyval) : string :=
  match v with
  | VNone => "None"
  | VStr s => s
  | VInt z => pretty z
  | VFloat f => float_repr f
  | VBool true => "True"
  | VBool false => "False"
  | VDate t => str_timestamp t
  | VNaT => "NaT"
  end.
End Str.

(** ** Worksheets (openpyxl) *)

Record Font := {
  font_name : option string;
  font_size : option nat;
  bold : bool;
  italic : bool
}.

(** The font of a cell that was never styled. *)
Definition DEFAULT_FONT : Font :=
  {| font_name := Some "Calibri"; font_size := Some 11;
     bold := false; italic := false |}.

(** [Font(bold=True)] *)
Definition Font_bold : Font :=
  {| font_name := None; font_size := None; bold := true; italic := false |}.

(** A colour is kept as aRGB: six hex digits get the alpha prefix "00". *)
Definition Color (rgb : string) : string :=
  if String.length rgb =? 6 then "00" +:+ rgb else rgb.

Record PatternFill := {
  fill_type : option string;
  start_color : string
}.

(** [PatternFill()] *)
Definition DEFAULT_FILL : PatternFill :=
  {| fill_type := None; start_color := "00000000" |}.

(** [PatternFill(fill_type="solid", start_color="b7aea5")] *)
Definition totals_fill : PatternFill :=
  {| fill_type := Some "solid"; start_color := Color "b7aea5" |}.

Record Cell := {
  value : pyval;
  number_format : string;
  font : Font;
  fill : PatternFill
}.

(** [Cell(ws, row, column, value)]: a date value brings its date format. *)
Definition new_cell (v : pyval) : Cell :=
  {| value := v;
     number_format :=
       match v with
       | VDate _ => "yyyy-mm-dd h:mm:ss"
       | _ => "General"
       end;
     font := DEFAULT_FONT;
     fill := DEFAULT_FILL |}.

Definition set_number_format (fmt : string) (c : Cell) : Cell :=
  {| value := value c; number_format := fmt; font := font c; fill := fill c |}.

Definition set_font (f : Font) (c : Cell) : Cell :=
  {| value := value c; number_format := number_format c; font := f;
     fill := fill c |}.

Definition set_fill (p : PatternFill) (c : Cell) : Cell :=
  {| value := value c; number_format := number_format c; font := font c;
     fill := p |}.

Record TableStyleInfo := {
  style_name : string;
  showFirstColumn : bool;
  showLastColumn : bool;
  showRowStripes : bool;
  showColumnStripes : bool
}.

Record Table := {
  displayName : string;
  ref : string;
  headerRowCount : nat;
  totalsRowCount : nat;
  tableStyleInfo : TableStyleInfo
}.

(** A worksheet: [cells] is openpyxl's [_cells] dictionary, keyed by
    (row, column), both counted from 1; [current_row] is [_current_row];
    [column_dimensions] maps a column letter to its width. *)
Record Worksheet := {
  title : string;
  cells : gmap (nat * nat) Cell;
  current_row : nat;
  tables : list Table;
  column_dimensions : gmap string float
}.

(** [Workbook().active], once titled. *)
Definition empty_worksheet (name : string) : Worksheet :=
  {| title := name; cells := ∅; current_row := 0; tables := [];
     column_dimensions := ∅ |}.

Definition with_cells (m : gmap (nat * nat) Cell) (ws : Worksheet) : Worksheet :=
  {| title := title ws; cells := m; current_row := current_row ws;
     tables := tables ws; column_dimensions := column_dimensions ws |}.

(** The largest coordinate of a key along one axis, 1 for an empty
    dictionary. *)
Definition max_index (axis : nat * nat → nat) (m : gmap (nat * nat) Cell) : nat :=
  match axis <$> (map_to_list m).*1 with
  | [] => 1
  | l => max_list l
  end.

(** [ws.max_row] *)
Definition max_row (ws : Worksheet) : nat := max_index fst (cells ws).

(** [ws.max_column] *)
Definition max_column (ws : Worksheet) : nat := max_index snd (cells ws).

(** [ws._add_cell(cell)] *)
Definition add_cell (r c : nat) (x : Cell) (ws : Worksheet) : Worksheet :=
  {| title := title ws; cells := <[(r, c) := x]> (cells ws);
     current_row := Nat.max r (current_row ws);
     tables := tables ws; column_dimensions := column_dimensions ws |}.

(** [ws.cell(row=r, column=c)]: the cell is created, empty, when the
    dictionary has none at (r, c).  The cell object itself is named by its
    coordinates, and read back with [cell_at]. *)
Definition ws_cell (r c : nat) (ws : Worksheet) : Worksheet :=
  match cells ws !! (r, c) with
  | Some _ => ws
  | None => add_cell r c (new_cell VNone) ws
  end.

(** The cell that [ws.cell(row=r, column=c)] returns. *)
Definition cell_at (ws : Worksheet) (r c : nat) : Cell :=
  default (new_cell VNone) (cells ws !! (r, c)).

(** An attribute assignment on the cell object at (r, c). *)
Definition update_cell (f : Cell → Cell) (r c : nat) (ws : Worksheet) : Worksheet :=
  with_cells (alter f (r, c) (cells ws)) ws.

(** One row of [ws.iter_rows(...)]: the tuple of
    [ws.cell(row=r, column=c)] for [c] in [cols]. *)
Definition row_tuple (r : nat) (cols : list nat) (ws : Worksheet) : Worksheet :=
  foldl (λ w c, ws_cell r c w) ws cols.

(** [ws[letter]] for the column of index [c]: the tuple of
    [ws.cell(row=r, column=c)] for [r] from 1 to [ws.max_row]. *)
Definition column_tuple (c : nat) (ws : Worksheet) : Worksheet :=
  foldl (λ w r, ws_cell r c w) ws (seq 1 (max_row ws)).

(** ** format_totals *)

(** The body of [for cell in row]. *)
Definition highlight_cell (r c : nat) (ws : Worksheet) : Worksheet :=
  update_cell (set_fill totals_fill) r c (update_cell (set_font Font_bold) r c ws).

(** The body of the loop over rows, for the row [r] and the columns [cols]
    of [iter_rows]. *)
Definition format_row (cols : list nat) (r : nat) (ws : Worksheet)
  : outcome unit * Worksheet :=
  let ws1 := row_tuple r cols ws in
  match cols with
  | [] => (Raise IndexError, ws1)
  | c0 :: _ =>
      let cell_value := value (cell_at ws1 r c0) in
      match py_contains "Total" cell_value with
      | Raise e => (Raise e, ws1)
      | Ok true => (Ok tt, foldl (λ w c, highlight_cell r c w) ws1 cols)
      | Ok false => (Ok tt, ws1)
      end
  end.

(** A [for] loop over [items] whose body may raise: the loop stops at the
    first exception, with the state as the body left it. *)
Fixpoint for_each {A S : Type} (body : A → S → outcome unit * S)
    (items : list A) (s : S) : outcome unit * S :=
  match items with
  | [] => (Ok tt, s)
  | x :: rest =>
      match body x s with
      | (Ok _, s1) => for_each body rest s1
      | (Raise e, s1) => (Raise e, s1)
      end
  end.

(** [format_totals(ws)]: the rows 2 .. [ws.max_row], the columns
    1 .. [ws.max_column]; the result is the exception raised, if any, and the
    worksheet as the call leaves it. *)
Definition format_totals (ws : Worksheet) : outcome unit * Worksheet :=
  for_each (format_row (seq 1 (max_column ws))) (seq 2 (max_row ws - 1)) ws.

(** ** DataFrames (pandas) *)

#[global] Instance outcome_ret : MRet outcome := @Ok.
#[global] Instance outcome_bind : MBind outcome := λ A B k o,
  match o with
  | Ok a => k a
  | Raise e => Raise e
  end.

(** A column: a [datetime64] column holds timestamps or [NaT] ([None]
    here); a column of any other dtype is the list of its values. *)
Inductive Series :=
| DatetimeSeries (l : list (option Timestamp))
| ObjectSeries (l : list pyval).

(** The Python objects of a column, as [tolist()] gives them. *)
Definition series_values (s : Series) : list pyval :=
  match s with
  | DatetimeSeries l =>
      (λ o, match o with Some t => VDate t | None => VNaT end) <$> l
  | ObjectSeries l => l
  end.

(** A DataFrame: [index_len] is the length of its index ([len(df)]),
    [frame] its columns in order, each with its name. *)
Record DataFrame := {
  index_len : nat;
  frame : list (string * Series)
}.

(** [df.columns] *)
Definition columns (df : DataFrame) : list string := (frame df).*1.

(** [df.columns = names] *)
Definition set_columns (names : list string) (df : DataFrame) : DataFrame :=
  {| index_len := index_len df;
     frame := zip names (frame df).*2 |}.

(** The positions of [col] among [names], counted from [i]. *)
Fixpoint positions_from (i : nat) (col : string) (names : list string) : list nat :=
  match names with
  | [] => []
  | n :: rest =>
      if String.eqb n col then i :: positions_from (S i) col rest
      else positions_from (S i) col rest
  end.

Definition positions (col : string) (names : list string) : list nat :=
  positions_from 0 col names.

(** What [Index.get_loc] returns: an integer for a name that occurs once, a
    slice or a mask for a name that occurs several times. *)
Inductive loc :=
| LocInt (i : nat)
| LocMany.

(** [df.columns.get_loc(col)] *)
Definition get_loc (names : list string) (col : string) : outcome loc :=
  match positions col names with
  | [] => Raise KeyError
  | [i] => Ok (LocInt i)
  | _ => Ok LocMany
  end.

(** [get_loc(col) + 1], as the argument of [get_column_letter]: neither a
    slice nor a mask gives a column index. *)
Definition loc_succ (l : loc) : outcome nat :=
  match l with
  | LocInt i => Ok (i + 1)
  | LocMany => Raise TypeError
  end.

(** What [df[col]] returns: the column, or a sub-frame when several columns
    bear the name. *)
Inductive selection :=
| OneSeries (s : Series)
| SubFrame.

(** [df[col]] *)
Definition df_getitem (df : DataFrame) (col : string) : outcome selection :=
  match positions col (columns df) with
  | [] => Raise KeyError
  | [i] =>
      match frame df !! i with
      | Some (_, s) => Ok (OneSeries s)
      | None => Raise KeyError
      end
  | _ => Ok SubFrame
  end.

(** One entry of [.dt.strftime("%m/%d/%Y")]: [NaT] gives NaN. *)
Definition strftime_value (o : option Timestamp) : pyval :=
  match o with
  | Some t => VStr (strftime_mdY t)
  | None => VFloat nan
  end.

(** [x.dt.strftime("%m/%d/%Y")]: only a datetime column has [.dt]. *)
Definition dt_strftime (x : selection) : outcome Series :=
  match x with
  | OneSeries (DatetimeSeries l) => Ok (ObjectSeries (strftime_value <$> l))
  | _ => Raise AttributeError
  end.

(** [df[col] = s]: the columns named [col] take the values of [s]; a new
    column is added at the end when there is none. *)
Definition df_setitem (col : string) (s : Series) (df : DataFrame) : DataFrame :=
  {| index_len := index_len df;
     frame :=
       if existsb (String.eqb col) (columns df) then
         (λ ns : string * Series,
            if String.eqb ns.1 col then (ns.1, s) else ns) <$> frame df
       else frame df ++ [(col, s)] |}.

(** [zip] over the columns in [data]: the rows of a list of columns, as long as the shortest
    column; no row at all without a column. *)
Fixpoint transpose (data : list (list pyval)) : list (list pyval) :=
  match data with
  | [] => []
  | [c] => (λ v, [v]) <$> c
  | c :: rest => zip_with cons c (transpose rest)
  end.

(** [dataframe_to_rows(df, index=False, header=True)]: the header, then one
    row for each record. *)
Definition dataframe_to_rows (df : DataFrame) : list (list pyval) :=
  (VStr <$> columns df) :: transpose (series_values <$> (frame df).*2).

(** ** Column letters (openpyxl.utils) *)

(** The letters of a column index, last letter first: the loop
    [while col_idx > 0] of [get_column_letter], which ends within [fuel]
    rounds when [col_idx <= fuel]. *)
Fixpoint column_letters (fuel col_idx : nat) : list ascii :=
  match fuel with
  | 0 => []
  | S fuel' =>
      if col_idx =? 0 then []
      else
        let remainder := col_idx mod 26 in
        if remainder =? 0
        then ascii_of_nat (26 + 64) :: column_letters fuel' (col_idx / 26 - 1)
        else ascii_of_nat (remainder + 64) :: column_letters fuel' (col_idx / 26)
  end.

(** The last column index that has a letter name, "ZZZ": 18278. *)
Definition MAX_COLUMN_INDEX : nat := 26 + 26 * 26 + 26 * 26 * 26.

(** [get_column_letter(idx)] *)
Definition get_column_letter (idx : nat) : outcome string :=
  if (1 <=? idx) && (idx <=? MAX_COLUMN_INDEX)
  then Ok (string_of_list_ascii (rev (column_letters idx idx)))
  else Raise ValueError.

(** [column_index_from_string(s)]: one to three letters, read in base 26. *)
Definition column_index_from_string (s : string) : outcome nat :=
  let letters := list_ascii_of_string s in
  if (1 <=? length letters) && (length letters <=? 3)
     && forallb is_cased letters
  then Ok (foldl (λ acc c, acc * 26 + (nat_of_ascii (to_upper c) - 64)) 0 letters)
  else Raise ValueError.

(** ** create_workbook *)

(** The table style of the script, a global that [create_workbook] reads. *)
Definition style : TableStyleInfo :=
  {| style_name := "TableStyleMedium9";
     showFirstColumn := false; showLastColumn := false;
     showRowStripes := true; showColumnStripes := true |}.

Definition dquote : string := String (ascii_of_nat 34) EmptyString.

(** The number format of a currency column: a quoted dollar sign, then
    [#,##0.00_-]. *)
Definition currency_format : string :=
  dquote +:+ "$" +:+ dquote +:+ "#,##0.00_-".

(** [enumerate(row, 1)] *)
Definition enumerate1 {A : Type} (row : list A) : list (nat * A) :=
  zip (seq 1 (length row)) row.

(** [ws.append(row)]: a new cell for each value, in the row after
    [current_row]. *)
Definition ws_append (row : list pyval) (ws : Worksheet) : Worksheet :=
  let row_idx := current_row ws + 1 in
  {| title := title ws;
     cells :=
       foldl (λ m ic, <[(row_idx, ic.1) := new_cell ic.2]> m)
             (cells ws) (enumerate1 row);
     current_row := row_idx;
     tables := tables ws;
     column_dimensions := column_dimensions ws |}.

(** [ws.add_table(tab)]: a display name can be used once. *)
Definition add_table (tab : Table) (ws : Worksheet) : outcome unit * Worksheet :=
  if existsb (String.eqb (displayName tab)) (displayName <$> tables ws)
  then (Raise ValueError, ws)
  else (Ok tt,
        {| title := title ws; cells := cells ws; current_row := current_row ws;
           tables := tables ws ++ [tab];
           column_dimensions := column_dimensions ws |}).

(** [ws.column_dimensions[column].width = w] *)
Definition set_width (column : string) (w : float) (ws : Worksheet) : Worksheet :=
  {| title := title ws; cells := cells ws; current_row := current_row ws;
     tables := tables ws;
     column_dimensions := <[column := w]> (column_dimensions ws) |}.

(** [ws[column]] for a column letter: the coordinates of the cells of the
    tuple, rows 1 .. [ws.max_row], and the worksheet once they exist. *)
Definition ws_getitem (column : string) (ws : Worksheet)
  : outcome (list (nat * nat)) * Worksheet :=
  match column_index_from_string column with
  | Raise e => (Raise e, ws)
  | Ok c => (Ok ((λ r, (r, c)) <$> seq 1 (max_row ws)), column_tuple c ws)
  end.

(** The body of the loop over [formatted_columns.items()]. *)
Definition format_column (col format : string) (df : DataFrame)
    (currency_columns : list string) : outcome (DataFrame * list string) :=
  if String.eqb format "date" then
    x ← df_getitem df col;
    s ← dt_strftime x;
    mret (df_setitem col s df, currency_columns)
  else if String.eqb format "currency" then
    l ← get_loc (columns df) col;
    n ← loc_succ l;
    letter ← get_column_letter n;
    mret (df, currency_columns ++ [letter])
  else mret (df, currency_columns).

Fixpoint format_columns (formatted_columns : list (string * string))
    (df : DataFrame) (currency_columns : list string)
  : outcome (list string) * DataFrame :=
  match formatted_columns with
  | [] => (Ok currency_columns, df)
  | (col, format) :: rest =>
      match format_column col format df currency_columns with
      | Ok (df1, currency_columns1) => format_columns rest df1 currency_columns1
      | Raise e => (Raise e, df)
      end
  end.

(** The body of the loop over [currency_columns]. *)
Definition format_currency (i : string) (ws : Worksheet) : outcome unit * Worksheet :=
  match ws_getitem i ws with
  | (Raise e, ws1) => (Raise e, ws1)
  | (Ok column_cells, ws1) =>
      (Ok tt,
       foldl (λ w rc, update_cell (set_number_format currency_format) rc.1 rc.2 w)
             ws1 column_cells)
  end.

(** [int * float], for an integer that a float holds exactly. *)
Definition float_of_nat (n : nat) : float :=
  PrimFloat.of_uint63 (Uint63.of_Z (Z.of_nat n)).

(** [(max_length + 2) * 1.4] *)
Definition adjusted_width (max_length : nat) : float :=
  PrimFloat.mul (float_of_nat (max_length + 2)) 0x1.6666666666666p+0%float.

Section Widths.
Variable float_repr : float -> string.

(** The [try] block of the width loop, for one cell value:
    [if len(str(v)) > max_length: max_length = len(v)], and [pass] on any
    exception. *)
Definition measure (max_length : nat) (v : pyval) : nat :=
  match
    (if max_length <? String.length (py_str float_repr v)
     then py_len v
     else Ok max_length)
  with
  | Ok n => n
  | Raise _ => max_length
  end.

(** The body of the loop over the column indices. *)
Definition adjust_column (col : nat) (ws : Worksheet) : outcome unit * Worksheet :=
  match get_column_letter col with
  | Raise e => (Raise e, ws)
  | Ok column =>
      match ws_getitem column ws with
      | (Raise e, ws1) => (Raise e, ws1)
      | (Ok column_cells, ws1) =>
          let max_length :=
            foldl (λ m rc, measure m (value (cell_at ws1 rc.1 rc.2))) 0 column_cells in
          (Ok tt, set_width column (adjusted_width max_length) ws1)
      end
  end.

(** [create_workbook(ws, df, **formatted_columns)]: the directives are the
    keyword arguments in order, each a column name with its format.  The
    result is the exception raised, if any, with the worksheet and the
    caller's DataFrame as the call leaves them. *)
Definition create_workbook (ws : Worksheet) (df : DataFrame)
    (formatted_columns : list (string * string))
  : outcome unit * Worksheet * DataFrame :=
  let df := set_columns (str_title <$> columns df) df in
  match format_columns formatted_columns df [] with
  | (Raise e, df) => (Raise e, ws, df)
  | (Ok currency_columns, df) =>
      let ws := foldl (λ w row, ws_append row w) ws (dataframe_to_rows df) in
      match get_column_letter (max_column ws) with
      | Raise e => (Raise e, ws, df)
      | Ok last =>
          let tab :=
            {| displayName := title ws;
               ref := "A1:" +:+ last +:+ pretty (index_len df + 1);
               headerRowCount := 1;
               totalsRowCount := 0;
               tableStyleInfo := style |} in
          match add_table tab ws with
          | (Raise e, ws) => (Raise e, ws, df)
          | (Ok _, ws) =>
              match for_each format_currency currency_columns ws with
              | (Raise e, ws) => (Raise e, ws, df)
              | (Ok _, ws) =>
                  let (r, ws) :=
                    for_each adjust_column (seq 1 (max_column ws)) ws in
                  (r, ws, df)
              end
          end
      end
  end.
End Widths.

(** ** The script: sample data *)

Definition midnight (y m d : nat) : Timestamp :=
  {| year := y; month := m; day := d; hour := 0; minute := 0; second := 0 |}.

(** [sample_df], after [pd.to_datetime] on its [Payment_Date] column. *)
Definition sample_df : DataFrame :=
  {| index_len := 4;
     frame :=
       [ ("Description",
          ObjectSeries [VStr "Salary"; VStr "Groceries"; VStr "Rent"; VStr "Total"]);
         ("Amount",
          ObjectSeries [VFloat 5000; VFloat (-150.5); VFloat (-1200); VFloat 3649.5]);
         ("Payment_Date",
          DatetimeSeries [Some (midnight 2023 10 13); Some (midnight 2023 10 14);
                          Some (midnight 2023 10 15); None]) ] |}.

(** The keyword arguments of the call in the script. *)
Definition sample_formats : list (string * string) :=
  [("Amount", "currency"); ("Payment_Date", "date")].

Definition sample_sheet : Worksheet := empty_worksheet "Sample_Sheet".

(** ** The save loop *)

(** What the loop sees of the world: [attempts] calls of [wb.save] so far,
    [lines_read] lines taken from the console, the lines printed (prompts
    included), whether the file was written, and the loop flag [saving]. *)
Record console := {
  attempts : nat;
  lines_read : nat;
  stdout : list string;
  file_written : bool;
  saving : bool
}.

Definition prompt : string :=
  "Please close the excel file then type 'y' to continue: ".

Section SaveLoop.
(** The host: the failure, if any, of each call of [wb.save] in turn, and
    each line that [input] returns in turn ([None]: end of input). *)
Variable save_result : nat → option exn.
Variable input_line : nat → option string.

(** The body of [while saving]. *)
Definition save_step (w : console) : outcome console :=
  match save_result (attempts w) with
  | None =>
      Ok {| attempts := S (attempts w); lines_read := lines_read w;
            stdout := stdout w ++ ["File saved"];
            file_written := true; saving := false |}
  | Some PermissionError =>
      match input_line (lines_read w) with
      | None => Raise EOFError
      | Some answer =>
          if negb (String.eqb answer "y") then
            Ok {| attempts := S (attempts w); lines_read := S (lines_read w);
                  stdout := stdout w ++ [prompt; "File not saved"];
                  file_written := file_written w; saving := false |}
          else
            Ok {| attempts := S (attempts w); lines_read := S (lines_read w);
                  stdout := stdout w ++ [prompt];
                  file_written := file_written w; saving := saving w |}
      end
  | Some e => Raise e
  end.

(** [while saving: ...], for at most [fuel] rounds: [None] when the loop is
    still running after them. *)
Fixpoint save_loop (fuel : nat) (w : console) : option (outcome console) :=
  if saving w then
    match fuel with
    | 0 => None
    | S fuel' =>
        match save_step w with
        | Ok w1 => save_loop fuel' w1
        | Raise e => Some (Raise e)
        end
    end
  else Some (Ok w).
End SaveLoop.

(** [saving = True], before the loop. *)
Definition console0 : console :=
  {| attempts := 0; lines_read := 0; stdout := []; file_written := false;
     saving := true |}.

(** ** Vocabulary of the statements *)

(** Coordinates count from 1: openpyxl refuses any other cell. *)
Definition cells_from_1 (ws : Worksheet) : Prop :=
  ∀ k, is_Some (cells ws !! k) → 1 ≤ k.1 ∧ 1 ≤ k.2.

Definition is_text (v : pyval) : bool :=
  match v with
  | VStr _ => true
  | _ => false
  end.

(** The first cell of row [r] holds a text that contains "Total". *)
Definition is_totals_row (ws : Worksheet) (r : nat) : bool :=
  match value (cell_at ws r 1) with
  | VStr s => contains "Total" s
  | _ => false
  end.

(** The cell [x] with the font and the fill of a totals row. *)
Definition highlighted (x : Cell) : Cell :=
  set_fill totals_fill (set_font Font_bold x).

Definition styled (totals : bool) (x : Cell) : Cell :=
  if totals then highlighted x else x.

(** The value of a column letter in base 26. *)
Definition letter_value (c : ascii) : nat := nat_of_ascii (to_upper c) - 64.

(** The largest column index with [k] letters: 26, 702, 18278. *)
Fixpoint letters_bound (k : nat) : nat :=
  match k with
  | 0 => 0
  | S k' => 26 * (letters_bound k' + 1)
  end.

(** Every column of a DataFrame has one value for each entry of the index. *)
Definition df_wf (df : DataFrame) : Prop :=
  ∀ ns, ns ∈ frame df → length (series_values ns.2) = index_len df.

(** What the formatting passes keep of a cell: its value, font and fill,
    and its number format unless it becomes the currency format. *)
Definition cell_kept (x x' : Cell) : Prop :=
  value x' = value x ∧ font x' = font x ∧ fill x' = fill x ∧
  (number_format x' = number_format x ∨ number_format x' = currency_format).

(** What they keep of a worksheet: every cell, and no new cell but empty
    ones. *)
Definition sheet_kept (ws ws' : Worksheet) : Prop :=
  ∀ k, match cells ws !! k with
       | Some x => ∃ x', cells ws' !! k = Some x' ∧ cell_kept x x'
       | None =>
           cells ws' !! k = None ∨
           ∃ x', cells ws' !! k = Some x' ∧ value x' = VNone
       end.





(** ** Small inputs for the examples *)

(** A stand-in for [repr] on floats, for runs whose outcome does not depend
    on how a float is rendered. *)
Definition some_repr (f : float) : string := "0.0".

(** One column of text, named "A". *)
Definition text_df : DataFrame :=
  {| index_len := 1; frame := [("A", ObjectSeries [VStr "x"])] |}.

(** One column of integers, named "Qty". *)
Definition qty_df : DataFrame :=
  {| index_len := 1; frame := [("Qty", ObjectSeries [VInt 1234567])] |}.

(** One column of numbers, named in lower case. *)
Definition amount_df : DataFrame :=
  {| index_len := 2; frame := [("amount", ObjectSeries [VInt 10; VInt 20])] |}.

(** The call of the script, [create_workbook(ws, sample_df, Amount="currency",
    Payment_Date="date")], and the worksheet it leaves. *)
Definition sample_run : outcome unit * Worksheet * DataFrame :=
  create_workbook some_repr sample_sheet sample_df sample_formats.

Definition sample_written : Worksheet := sample_run.1.2.

(** The worksheet that [create_workbook(ws, qty_df)] leaves. *)
Definition qty_written : Worksheet :=
  (create_workbook some_repr (empty_worksheet "Sheet") qty_df []).1.2.


(** The console after [k] such rounds and a save that succeeds. *)
Definition saved_after (w : console) (k : nat) : console :=
  {| attempts := attempts w + k + 1; lines_read := lines_read w + k;
     stdout := stdout w ++ repeat prompt k ++ ["File saved"];
     file_written := true; saving := false |}.

(** The console after [k] such rounds and one more, answered otherwise. *)
Definition abandoned_after (w : console) (k : nat) : console :=
  {| attempts := attempts w + k + 1; lines_read := lines_read w + k + 1;
     stdout := stdout w ++ repeat prompt k ++ [prompt; "File not saved"];
     file_written := file_written w; saving := false |}.


(** An operator who answers 'y' to every prompt. *)
Definition answers_yes (n : nat) : option string := Some "y".

(** ** Vocabulary of the further properties *)

(** A dictionary with a cell at every coordinate of [rows] rows and [cols]
    columns, and at no other. *)
Definition rectangle (rows cols : nat) (m : gmap (nat * nat) Cell) : Prop :=
  ∀ k, is_Some (m !! k) ↔ (1 ≤ k.1 ≤ rows ∧ 1 ≤ k.2 ≤ cols).

(** What a value adds to [max_length] in the width loop: the length of a
    text, nothing for any other value. *)
Definition text_length (v : pyval) : nat :=
  match v with
  | VStr s => String.length s
  | _ => 0
  end.

(** The table that [create_workbook] declares on a worksheet titled [name],
    for a last column [last] and a DataFrame of [len] records. *)
Definition table_of (name last : string) (len : nat) : Table :=
  {| displayName := name;
     ref := "A1:" +:+ last +:+ pretty (len + 1);
     headerRowCount := 1;
     totalsRowCount := 0;
     tableStyleInfo := style |}.

(** The values of the column [col] in the rows 1 .. [rows], an absent cell
    reading as empty. *)
Definition column_values (m : gmap (nat * nat) Cell) (rows col : nat) : list pyval :=
  (λ r, value (default (new_cell VNone) (m !! (r, col)))) <$> seq 1 rows.


(** One column whose second record is a number, and the worksheet that
    [create_workbook(ws, mixed_df)] leaves. *)
Definition mixed_df : DataFrame :=
  {| index_len := 3;
     frame := [("Item", ObjectSeries [VStr "Total"; VInt 5; VStr "Total"])] |}.

Definition mixed_written : Worksheet :=
  (create_workbook some_repr (empty_worksheet "Sheet") mixed_df []).1.2.

(** * Properties *)

(** ** Strings *)





(** ** The dictionary of cells *)

Lemma max_index_empty (axis : nat * nat → nat) : max_index axis ∅ = 1.
Proof. unfold max_index. by rewrite map_to_list_empty. Qed.

Lemma elem_of_axis_list (axis : nat * nat → nat) (m : gmap (nat * nat) Cell) n :
  n ∈ axis <$> (map_to_list m).*1 ↔ ∃ k, is_Some (m !! k) ∧ axis k = n.
Proof.
  rewrite list_elem_of_fmap. split.
  - intros (k & -> & Hk). apply list_elem_of_fmap in Hk as ([k' x] & -> & Hkx).
    apply elem_of_map_to_list in Hkx. exists k'. eauto.
  - intros (k & [x Hx] & <-). exists k. split; [done |].
    apply list_elem_of_fmap. exists (k, x). split; [done |].
    by apply elem_of_map_to_list.
Qed.

Lemma max_index_le (axis : nat * nat → nat) (m : gmap (nat * nat) Cell) k :
  is_Some (m !! k) → axis k ≤ max_index axis m.
Proof.
  intros Hk. unfold max_index.
  assert (axis k ∈ axis <$> (map_to_list m).*1) as Hin
    by (apply elem_of_axis_list; eauto).
  destruct (axis <$> (map_to_list m).*1) as [|a l] eqn:E.
  - by apply elem_of_nil in Hin.
  - by apply max_list_elem_of_le.
Qed.

Lemma max_index_attained (axis : nat * nat → nat) (m : gmap (nat * nat) Cell) :
  m ≠ ∅ → ∃ k, is_Some (m !! k) ∧ axis k = max_index axis m.
Proof.
  intros Hne. unfold max_index.
  destruct (axis <$> (map_to_list m).*1) as [|a l] eqn:E.
  - destruct Hne. apply map_to_list_empty_iff.
    by destruct (map_to_list m).
  - apply elem_of_axis_list. rewrite E. by apply max_list_elem_of.
Qed.

(** Cells added within the bounds of a worksheet leave its bounds as they
    are. *)
Lemma max_index_stable (axis : nat * nat → nat) (m m' : gmap (nat * nat) Cell) :
  m ≠ ∅ →
  (∀ k, is_Some (m !! k) → is_Some (m' !! k)) →
  (∀ k, is_Some (m' !! k) → axis k ≤ max_index axis m) →
  max_index axis m' = max_index axis m.
Proof.
  intros Hne Hsub Hbound.
  destruct (max_index_attained axis m Hne) as (k & Hk & Hmax).
  assert (m' ≠ ∅) as Hne'.
  { intros ->. apply Hsub in Hk. rewrite lookup_empty in Hk. by destruct Hk. }
  destruct (max_index_attained axis m' Hne') as (k' & Hk' & Hmax').
  apply Nat.le_antisymm.
  - rewrite <- Hmax'. by apply Hbound.
  - rewrite <- Hmax. apply max_index_le. by apply Hsub.
Qed.

(** ** Worksheet operations *)

Lemma foldl_agree {A B} (f g : A → B → A) (a : A) (l : list B) :
  (∀ a b, f a b = g a b) → foldl f a l = foldl g a l.
Proof.
  intros Hfg. revert a. induction l as [|b l IH]; intros a; simpl; [done |].
  by rewrite Hfg, IH.
Qed.

Lemma worksheet_eq (ws ws' : Worksheet) :
  title ws = title ws' → cells ws = cells ws' →
  current_row ws = current_row ws' → tables ws = tables ws' →
  column_dimensions ws = column_dimensions ws' → ws = ws'.
Proof. destruct ws, ws'; simpl; intros; by subst. Qed.

Lemma cells_ws_cell r c ws k :
  cells (ws_cell r c ws) !! k =
  if decide (k = (r, c)) then Some (cell_at ws r c) else cells ws !! k.
Proof.
  unfold ws_cell, cell_at. destruct (cells ws !! (r, c)) as [x|] eqn:E; simpl.
  - case_decide; by subst.
  - rewrite lookup_insert. repeat case_decide; by subst.
Qed.

Lemma cell_at_ws_cell r c ws r' c' :
  cell_at (ws_cell r c ws) r' c' = cell_at ws r' c'.
Proof.
  unfold cell_at at 1. rewrite cells_ws_cell.
  case_decide as H; [by inversion H | done].
Qed.

Lemma ws_cell_id r c ws : is_Some (cells ws !! (r, c)) → ws_cell r c ws = ws.
Proof. intros [x Hx]. unfold ws_cell. by rewrite Hx. Qed.

(** Fetching the cells at the coordinates [ks], in order. *)
Lemma cells_fetch (ks : list (nat * nat)) ws k :
  cells (foldl (λ w k, ws_cell k.1 k.2 w) ws ks) !! k =
  if decide (k ∈ ks) then Some (cell_at ws k.1 k.2) else cells ws !! k.
Proof.
  revert ws. induction ks as [|[r c] ks IH]; intros ws; cbn [foldl].
  - destruct (decide (k ∈ [])) as [H|]; [by apply elem_of_nil in H | done].
  - rewrite IH, cell_at_ws_cell, cells_ws_cell. cbn [fst snd].
    repeat case_decide; try done; set_solver.
Qed.

Lemma fetch_id (ks : list (nat * nat)) ws :
  (∀ k, k ∈ ks → is_Some (cells ws !! k)) →
  foldl (λ w k, ws_cell k.1 k.2 w) ws ks = ws.
Proof.
  induction ks as [|[r c] ks IH]; intros Hks; simpl; [done |].
  rewrite ws_cell_id by (apply Hks; set_solver).
  apply IH. intros k Hk. apply Hks. set_solver.
Qed.

Lemma cell_at_fetch (ks : list (nat * nat)) ws r c :
  cell_at (foldl (λ w k, ws_cell k.1 k.2 w) ws ks) r c = cell_at ws r c.
Proof.
  unfold cell_at at 1. rewrite cells_fetch. by case_decide.
Qed.

Lemma row_tuple_fetch r cols ws :
  row_tuple r cols ws = foldl (λ w k, ws_cell k.1 k.2 w) ws ((λ c, (r, c)) <$> cols).
Proof. unfold row_tuple. by rewrite foldl_fmap. Qed.

Lemma column_tuple_fetch c ws :
  column_tuple c ws =
  foldl (λ w k, ws_cell k.1 k.2 w) ws ((λ r, (r, c)) <$> seq 1 (max_row ws)).
Proof. unfold column_tuple. by rewrite foldl_fmap. Qed.

Lemma cells_update_cell f r c ws k :
  cells (update_cell f r c ws) !! k =
  if decide (k = (r, c)) then f <$> cells ws !! k else cells ws !! k.
Proof.
  unfold update_cell. simpl. rewrite lookup_alter.
  repeat case_decide; by subst.
Qed.

(** Assigning an attribute on the cells at the coordinates [ks]. *)
Lemma cells_update_all (f : Cell → Cell) (ks : list (nat * nat)) ws k :
  (∀ x, f (f x) = f x) →
  cells (foldl (λ w k, update_cell f k.1 k.2 w) ws ks) !! k =
  if decide (k ∈ ks) then f <$> cells ws !! k else cells ws !! k.
Proof.
  intros Hf. revert ws. induction ks as [|[r c] ks IH]; intros ws; cbn [foldl].
  - destruct (decide (k ∈ [])) as [H|]; [by apply elem_of_nil in H | done].
  - rewrite IH, cells_update_cell. cbn [fst snd].
    repeat case_decide; try done; try set_solver.
    destruct (cells ws !! k); simpl; by rewrite ?Hf.
Qed.

Lemma update_all_frame (f : Cell → Cell) (ks : list (nat * nat)) ws :
  let ws' := foldl (λ w k, update_cell f k.1 k.2 w) ws ks in
  title ws' = title ws ∧ current_row ws' = current_row ws ∧
  tables ws' = tables ws ∧ column_dimensions ws' = column_dimensions ws.
Proof.
  revert ws. induction ks as [|[r c] ks IH]; intros ws; simpl; [done |].
  destruct (IH (update_cell f r c ws)) as (-> & -> & -> & ->). done.
Qed.

Lemma fetch_frame (ks : list (nat * nat)) ws :
  let ws' := foldl (λ w k, ws_cell k.1 k.2 w) ws ks in
  title ws' = title ws ∧ tables ws' = tables ws ∧
  column_dimensions ws' = column_dimensions ws.
Proof.
  revert ws. induction ks as [|[r c] ks IH]; intros ws; simpl; [done |].
  destruct (IH (ws_cell r c ws)) as (-> & -> & ->).
  unfold ws_cell. by destruct (cells ws !! (r, c)).
Qed.

(** ** format_totals, row by row *)

Lemma highlight_cell_update r c ws :
  highlight_cell r c ws = update_cell highlighted r c ws.
Proof.
  unfold highlight_cell, update_cell, highlighted. simpl.
  apply worksheet_eq; simpl; try done.
  apply (alter_alter_eq (set_fill totals_fill) (set_font Font_bold)).
Qed.

Lemma highlighted_idemp x : highlighted (highlighted x) = highlighted x.
Proof. done. Qed.

Lemma styled_idemp t x : styled t (styled t x) = styled t x.
Proof. by destruct t. Qed.

Lemma value_styled t x : value (styled t x) = value x.
Proof. by destruct t. Qed.

Lemma format_row_text cols r ws s :
  value (cell_at ws r 1) = VStr s →
  format_row (1 :: cols) r ws =
  (Ok tt,
   if contains "Total" s
   then foldl (λ w k, update_cell highlighted k.1 k.2 w)
              (row_tuple r (1 :: cols) ws) ((λ c, (r, c)) <$> 1 :: cols)
   else row_tuple r (1 :: cols) ws).
Proof.
  intros Hv. unfold format_row.
  rewrite (row_tuple_fetch r (1 :: cols) ws) at 1.
  rewrite cell_at_fetch, Hv. simpl py_contains.
  destruct (contains "Total" s); [|done].
  f_equal. rewrite foldl_fmap. apply foldl_agree.
  intros w c. apply highlight_cell_update.
Qed.

Lemma format_row_not_text cols r ws :
  is_text (value (cell_at ws r 1)) = false →
  format_row (1 :: cols) r ws = (Raise TypeError, row_tuple r (1 :: cols) ws).
Proof.
  intros Hv. unfold format_row.
  rewrite (row_tuple_fetch r (1 :: cols) ws) at 1.
  rewrite cell_at_fetch. by destruct (value (cell_at ws r 1)).
Qed.

(** One round of the loop either raises [TypeError] or styles its row. *)
Lemma format_row_cases cols r ws :
  (is_text (value (cell_at ws r 1)) = false ∧
   (format_row (1 :: cols) r ws).1 = Raise TypeError) ∨
  (is_text (value (cell_at ws r 1)) = true ∧
   (format_row (1 :: cols) r ws).1 = Ok tt ∧
   ∀ k, cells (format_row (1 :: cols) r ws).2 !! k =
        if decide (k.1 = r ∧ k.2 ∈ 1 :: cols)
        then Some (styled (is_totals_row ws r) (cell_at ws r k.2))
        else cells ws !! k).
Proof.
  destruct (value (cell_at ws r 1)) as [|s| | | | |] eqn:Hv;
    try (left; split; [done |]; rewrite format_row_not_text; [done | by rewrite Hv]).
  right. split; [done |]. rewrite (format_row_text _ _ _ s Hv).
  split; [done |]. intros [r' c']. cbn [fst snd].
  unfold is_totals_row. rewrite Hv.
  assert (∀ l : list nat, (r', c') ∈ (λ c, (r, c)) <$> l ↔ r' = r ∧ c' ∈ l) as Hin.
  { intros l. rewrite list_elem_of_fmap. naive_solver. }
  destruct (contains "Total" s); cbn [styled].
  - rewrite cells_update_all by apply highlighted_idemp.
    rewrite row_tuple_fetch, cells_fetch. cbn [fst snd].
    repeat case_decide; try done; rewrite Hin in *; naive_solver.
  - rewrite row_tuple_fetch, cells_fetch. cbn [fst snd].
    repeat case_decide; try done; rewrite Hin in *; naive_solver.
Qed.

(** ** format_totals, the whole loop *)

Lemma for_each_fixed {A S} (body : A → S → outcome unit * S) (items : list A) (s : S) :
  (∀ x, x ∈ items → body x s = (Ok tt, s)) →
  for_each body items s = (Ok tt, s).
Proof.
  induction items as [|x items IH]; intros Hfix; simpl; [done |].
  rewrite Hfix by set_solver. apply IH. intros y Hy. apply Hfix. set_solver.
Qed.

Lemma cell_at_cells ws ws' r c :
  cells ws' !! (r, c) = cells ws !! (r, c) → cell_at ws' r c = cell_at ws r c.
Proof. unfold cell_at. by intros ->. Qed.

Lemma format_rows_ok cols rows ws ws' :
  NoDup rows →
  for_each (format_row (1 :: cols)) rows ws = (Ok tt, ws') →
  (∀ r, r ∈ rows → is_text (value (cell_at ws r 1)) = true) ∧
  ∀ k, cells ws' !! k =
       if decide (k.1 ∈ rows ∧ k.2 ∈ 1 :: cols)
       then Some (styled (is_totals_row ws k.1) (cell_at ws k.1 k.2))
       else cells ws !! k.
Proof.
  intros Hnd. revert ws. induction Hnd as [|r rest Hr Hnd IH]; intros ws Hrun.
  - simpl in Hrun. injection Hrun as <-. split; [set_solver |].
    intros k. case_decide; [set_solver | done].
  - cbn [for_each] in Hrun.
    destruct (format_row_cases cols r ws) as [[_ Hraise] | (Htext & Hok & Hcells)];
      destruct (format_row (1 :: cols) r ws) as [o ws1]; cbn [fst snd] in *; subst o;
      [done |].
    destruct (IH ws1 Hrun) as [Htexts Hks].
    assert (∀ r' c, r' ≠ r → cell_at ws1 r' c = cell_at ws r' c) as Hother.
    { intros r' c Hne. apply cell_at_cells. rewrite Hcells. simpl.
      case_decide; naive_solver. }
    split.
    + intros r' [-> | Hin]%elem_of_cons; [done |].
      rewrite <- (Hother r' 1) by set_solver. by apply Htexts.
    + intros [r' c']. rewrite Hks, Hcells. cbn [fst snd].
      destruct (decide (c' ∈ 1 :: cols)) as [Hc | Hc].
      2:{ rewrite !decide_False by tauto. done. }
      destruct (decide (r' ∈ rest)) as [Hin | Hnin].
      { assert (r' ≠ r) by (intros ->; done).
        rewrite !decide_True by (split; [set_solver | done]).
        unfold is_totals_row. by rewrite !Hother. }
      rewrite (decide_False (P := r' ∈ rest ∧ _)) by tauto.
      destruct (decide (r' = r)) as [-> | Hne].
      { rewrite !decide_True by (split; [set_solver | done]). done. }
      rewrite !decide_False; [done | | tauto].
      intros [[-> | ?]%elem_of_cons _]; done.
Qed.

Lemma format_rows_type_error cols rows ws r :
  r ∈ rows → is_text (value (cell_at ws r 1)) = false →
  (for_each (format_row (1 :: cols)) rows ws).1 = Raise TypeError.
Proof.
  revert ws. induction rows as [|r0 rest IH]; intros ws Hin Hr; [set_solver |].
  cbn [for_each].
  destruct (format_row_cases cols r0 ws) as [[_ Hraise] | (Htext & Hok & Hcells)];
    destruct (format_row (1 :: cols) r0 ws) as [o ws1]; cbn [fst snd] in *; subst o;
    [done |].
  assert (r ≠ r0) as Hne by (intros ->; congruence).
  apply IH; [set_solver |].
  rewrite (cell_at_cells ws ws1); [done |].
  rewrite Hcells. simpl. case_decide; naive_solver.
Qed.

(** A row that is styled already is left as it is. *)
Lemma format_row_fixed cols r ws :
  is_text (value (cell_at ws r 1)) = true →
  (∀ c, c ∈ 1 :: cols →
        ∃ x, cells ws !! (r, c) = Some x ∧ styled (is_totals_row ws r) x = x) →
  format_row (1 :: cols) r ws = (Ok tt, ws).
Proof.
  intros Htext Hrow.
  destruct (value (cell_at ws r 1)) as [|s| | | | |] eqn:Hv; try done.
  rewrite (format_row_text _ _ _ s Hv).
  assert (row_tuple r (1 :: cols) ws = ws) as ->.
  { rewrite row_tuple_fetch. apply fetch_id.
    intros k (c & -> & Hc)%list_elem_of_fmap.
    destruct (Hrow c Hc) as (x & -> & _). eauto. }
  destruct (contains "Total" s) eqn:Ht; [|done].
  f_equal. apply worksheet_eq;
    try apply (update_all_frame highlighted ((λ c, (r, c)) <$> 1 :: cols) ws).
  apply map_eq. intros k.
  rewrite cells_update_all by apply highlighted_idemp.
  case_decide as Hk; [|done].
  apply list_elem_of_fmap in Hk as (c & -> & Hc).
  destruct (Hrow c Hc) as (x & -> & Hx).
  unfold is_totals_row in Hx. rewrite Hv, Ht in Hx. cbn [styled] in Hx.
  change (Some (highlighted x) = Some x). by rewrite Hx.
Qed.

Lemma seq_S_head (n : nat) : seq 1 (S n) = 1 :: seq 2 n.
Proof. done. Qed.

(** [format_totals] leaves the bounds of the worksheet as they are. *)
Lemma format_totals_bounds ws ws' :
  format_totals ws = (Ok tt, ws') →
  max_row ws' = max_row ws ∧ max_column ws' = max_column ws.
Proof.
  unfold format_totals. intros Hrun.
  destruct (max_column ws) as [|n] eqn:Hcols.
  { destruct (seq 2 (max_row ws - 1)) as [|r rest]; simpl in Hrun.
    - injection Hrun as <-. done.
    - unfold format_row in Hrun. simpl in Hrun. done. }
  rewrite seq_S_head in Hrun.
  apply format_rows_ok in Hrun as [_ Hks]; [|apply NoDup_seq].
  destruct (decide (cells ws = ∅)) as [Hempty | Hne].
  { assert (max_row ws = 1) as Hmr
      by (unfold max_row; rewrite Hempty; apply max_index_empty).
    assert (cells ws' = cells ws) as Heq.
    { apply map_eq. intros k. rewrite Hks, Hmr.
      case_decide as H; [|done]. destruct H as [H _].
      simpl in H. by apply elem_of_nil in H. }
    unfold max_row, max_column in *. by rewrite Heq. }
  assert (∀ k, is_Some (cells ws !! k) → is_Some (cells ws' !! k)) as Hsub.
  { intros k Hk. rewrite Hks. by case_decide. }
  assert (∀ k, is_Some (cells ws' !! k) →
               k.1 ≤ max_row ws ∧ k.2 ≤ max_column ws) as Hbound.
  { intros k. rewrite Hks. case_decide as Hk.
    - intros _. destruct Hk as [Hr Hc].
      apply elem_of_seq in Hr. rewrite Hcols, <- seq_S_head in *.
      apply elem_of_seq in Hc. lia.
    - intros Hk'. split; by apply max_index_le. }
  rewrite <- Hcols. unfold max_row, max_column in *.
  split; apply max_index_stable; try done; intros k Hk; by apply Hbound.
Qed.

Lemma max_column_from_1 ws :
  cells_from_1 ws → 1 ≤ max_column ws.
Proof.
  intros Hwf. unfold max_column.
  destruct (decide (cells ws = ∅)) as [-> | Hne].
  - by rewrite max_index_empty.
  - destruct (max_index_attained snd (cells ws) Hne) as (k & Hk & <-).
    by apply Hwf.
Qed.

(** The cells of a worksheet after [format_totals]: the data rows are
    complete, and styled when their first cell contains "Total". *)
Lemma format_totals_cells ws ws' :
  format_totals ws = (Ok tt, ws') →
  ∀ r c,
    if decide ((2 ≤ r ≤ max_row ws) ∧ (1 ≤ c ≤ max_column ws))
    then cells ws' !! (r, c) = Some (styled (is_totals_row ws r) (cell_at ws r c))
    else cells ws' !! (r, c) = cells ws !! (r, c).
Proof.
  unfold format_totals. intros Hrun r c.
  destruct (max_column ws) as [|n] eqn:Hcols.
  { case_decide; [lia |].
    destruct (seq 2 (max_row ws - 1)) as [|r0 rest]; cbn [for_each] in Hrun.
    - by injection Hrun as <-.
    - unfold format_row in Hrun. simpl in Hrun. done. }
  rewrite seq_S_head in Hrun.
  apply format_rows_ok in Hrun as [_ Hks]; [|apply NoDup_seq].
  rewrite Hks. cbn [fst snd].
  assert (r ∈ seq 2 (max_row ws - 1) ↔ 2 ≤ r ≤ max_row ws) as Hr
    by (rewrite elem_of_seq; lia).
  assert (c ∈ 1 :: seq 2 n ↔ 1 ≤ c ≤ S n) as Hc
    by (rewrite <- seq_S_head, elem_of_seq; lia).
  repeat case_decide; try done; tauto.
Qed.

(** ** DataFrames *)

Lemma elem_of_positions_from (i : nat) (col : string) (names : list string) (j : nat) :
  j ∈ positions_from i col names ↔ ∃ k, j = i + k ∧ names !! k = Some col.
Proof.
  revert i. induction names as [|n names IH]; intros i; cbn [positions_from].
  - split; [by intros ?%elem_of_nil | by intros (k & _ & ?)].
  - destruct (String.eqb_spec n col) as [-> | Hne].
    + rewrite elem_of_cons, IH. split.
      * intros [-> | (k & -> & Hk)]; [exists 0 | exists (S k)];
          (split; [lia | done]).
      * intros ([|k] & -> & Hk); [left; lia | right; exists k].
        split; [lia | done].
    + rewrite IH. split.
      * intros (k & -> & Hk). exists (S k). split; [lia | done].
      * intros ([|k] & -> & Hk); [simpl in Hk; congruence |].
        exists k. split; [lia | done].
Qed.

Lemma elem_of_positions (col : string) (names : list string) (j : nat) :
  j ∈ positions col names ↔ names !! j = Some col.
Proof.
  unfold positions. rewrite elem_of_positions_from. naive_solver.
Qed.

Lemma positions_nil (col : string) (names : list string) :
  positions col names = [] ↔ col ∉ names.
Proof.
  split.
  - intros Hnil [j Hj]%list_elem_of_lookup.
    apply elem_of_positions in Hj. rewrite Hnil in Hj. by apply elem_of_nil in Hj.
  - intros Hnot. destruct (positions col names) as [|j l] eqn:E; [done |].
    destruct Hnot. apply list_elem_of_lookup. exists j.
    apply elem_of_positions. rewrite E. by left.
Qed.




Lemma existsb_eqb_elem_of (col : string) (names : list string) :
  existsb (String.eqb col) names = true ↔ col ∈ names.
Proof.
  rewrite existsb_exists. split.
  - intros (n & Hin & ->%String.eqb_eq). by apply list_elem_of_In.
  - intros Hin. exists col. split; [by apply list_elem_of_In | apply String.eqb_refl].
Qed.

Lemma frame_set_columns (f : string → string) (df : DataFrame) :
  frame (set_columns (f <$> columns df) df) = (λ ns, (f ns.1, ns.2)) <$> frame df.
Proof.
  unfold set_columns, columns. cbn [frame].
  induction (frame df) as [|[n s] l IH]; [done |].
  cbn [fmap list_fmap fst snd zip zip_with] in *. by rewrite IH.
Qed.

Lemma columns_set_columns (f : string → string) (df : DataFrame) :
  columns (set_columns (f <$> columns df) df) = f <$> columns df.
Proof.
  unfold columns at 1. rewrite frame_set_columns. unfold columns.
  rewrite <- !list_fmap_compose. done.
Qed.

Lemma columns_lookup (df : DataFrame) (j : nat) (n : string) :
  columns df !! j = Some n ↔ ∃ s, frame df !! j = Some (n, s).
Proof.
  unfold columns. rewrite list_lookup_fmap. split.
  - destruct (frame df !! j) as [[n' s]|]; simpl; [|done].
    intros [= ->]. eauto.
  - intros [s ->]. done.
Qed.

Lemma frame_setitem (col : string) (s : Series) (df : DataFrame) :
  col ∈ columns df →
  frame (df_setitem col s df) =
  (λ ns : string * Series, if String.eqb ns.1 col then (ns.1, s) else ns) <$> frame df.
Proof.
  intros Hin%existsb_eqb_elem_of. unfold df_setitem. simpl. by rewrite Hin.
Qed.

Lemma columns_setitem (col : string) (s : Series) (df : DataFrame) :
  col ∈ columns df → columns (df_setitem col s df) = columns df.
Proof.
  intros Hin. unfold columns at 1. rewrite frame_setitem by done.
  unfold columns. rewrite <- list_fmap_compose. apply list_fmap_ext.
  intros i [n s0] _. simpl. by destruct (String.eqb n col).
Qed.

(** The three kinds of directive, one inversion each. *)
Lemma format_column_date col df cc df1 cc1 :
  format_column col "date" df cc = Ok (df1, cc1) →
  cc1 = cc ∧
  ∃ j l, positions col (columns df) = [j] ∧
         frame df !! j = Some (col, DatetimeSeries l) ∧
         df1 = df_setitem col (ObjectSeries (strftime_value <$> l)) df.
Proof.
  unfold format_column, df_getitem. cbn [String.eqb Ascii.eqb Bool.eqb].
  destruct (positions col (columns df)) as [|j [|j' l']] eqn:Hpos; try done.
  assert (columns df !! j = Some col) as Hj
    by (apply elem_of_positions; rewrite Hpos; by left).
  apply columns_lookup in Hj as [s Hs]. rewrite Hs. cbn.
  destruct s as [l|l]; cbn; [|done].
  intros [= <- <-]. split; [done |]. by exists j, l.
Qed.

Lemma format_column_currency col df cc df1 cc1 :
  format_column col "currency" df cc = Ok (df1, cc1) →
  df1 = df ∧
  ∃ j letter, positions col (columns df) = [j] ∧
              get_column_letter (j + 1) = Ok letter ∧ cc1 = cc ++ [letter].
Proof.
  unfold format_column, get_loc. cbn [String.eqb Ascii.eqb Bool.eqb].
  destruct (positions col (columns df)) as [|j [|j' l']] eqn:Hpos; try done.
  cbn. destruct (get_column_letter (j + 1)) as [letter|] eqn:Hl; cbn; [|done].
  intros [= <- <-]. split; [done |]. by exists j, letter.
Qed.

Lemma format_column_other col format df cc :
  format ≠ "date" → format ≠ "currency" →
  format_column col format df cc = Ok (df, cc).
Proof.
  intros Hd Hc. unfold format_column.
  destruct (String.eqb_spec format "date"); [done |].
  destruct (String.eqb_spec format "currency"); done.
Qed.


(** [KeyError] comes from nothing else. *)
Lemma format_column_key_error col format df cc :
  format_column col format df cc = Raise KeyError →
  (format = "date" ∨ format = "currency") ∧ col ∉ columns df.
Proof.
  unfold format_column, df_getitem, get_loc.
  destruct (String.eqb_spec format "date") as [-> | Hd].
  - intros H. split; [by left |]. apply positions_nil.
    destruct (positions col (columns df)) as [|j [|j' l']] eqn:Hpos; try done.
    assert (columns df !! j = Some col) as Hj
      by (apply elem_of_positions; rewrite Hpos; by left).
    apply columns_lookup in Hj as [s Hs]. rewrite Hs in H. cbn in H.
    by destruct s.
  - destruct (String.eqb_spec format "currency") as [-> | Hc]; [|done].
    intros H. split; [by right |]. apply positions_nil.
    destruct (positions col (columns df)) as [|j [|j' l']] eqn:Hpos; try done.
    cbn in H. unfold get_column_letter in H.
    by destruct ((1 <=? j + 1) && (j + 1 <=? MAX_COLUMN_INDEX)).
Qed.

(** ** Column letters *)

Lemma letter_value_chr (r : nat) :
  1 ≤ r ≤ 26 →
  letter_value (ascii_of_nat (r + 64)) = r ∧ is_cased (ascii_of_nat (r + 64)) = true.
Proof.
  intros Hr.
  assert (forallb (λ r, (letter_value (ascii_of_nat (r + 64)) =? r) &&
                        is_cased (ascii_of_nat (r + 64))) (seq 1 26) = true) as Hall
    by (vm_compute; reflexivity).
  rewrite forallb_forall in Hall. specialize (Hall r).
  apply andb_prop in Hall as [Hv Hc]; [|apply in_seq; lia].
  by apply Nat.eqb_eq in Hv.
Qed.

Lemma column_letters_spec (fuel n : nat) :
  n ≤ fuel →
  foldr (λ c acc, acc * 26 + letter_value c) 0 (column_letters fuel n) = n ∧
  forallb is_cased (column_letters fuel n) = true.
Proof.
  revert n. induction fuel as [|fuel IH]; intros n Hn.
  - assert (n = 0) as -> by lia. done.
  - cbn [column_letters]. destruct (Nat.eqb_spec n 0) as [-> | Hn0]; [done |].
    pose proof (Nat.div_mod_eq n 26) as Hdm.
    pose proof (Nat.mod_upper_bound n 26) as Hmod.
    destruct (Nat.eqb_spec (n mod 26) 0) as [Hr | Hr].
    + destruct (IH (n / 26 - 1)) as [Hval Hcased]; [lia |].
      destruct (letter_value_chr 26) as [Hz Hzc]; [lia |].
      cbn [foldr forallb]. rewrite Hval, Hcased, Hz, Hzc. split; [lia | done].
    + destruct (IH (n / 26)) as [Hval Hcased]; [lia |].
      destruct (letter_value_chr (n mod 26)) as [Hz Hzc]; [lia |].
      cbn [foldr forallb]. rewrite Hval, Hcased, Hz, Hzc. split; [lia | done].
Qed.

(** The number of letters of a column index: one up to 26, two up to 702,
    three up to 18278. *)
Lemma column_letters_length (k fuel n : nat) :
  1 ≤ n → n ≤ fuel → n ≤ letters_bound k →
  1 ≤ length (column_letters fuel n) ≤ k.
Proof.
  revert fuel n. induction k as [|k IH]; intros fuel n Hn1 Hfuel Hk.
  - simpl in Hk. lia.
  - destruct fuel as [|fuel]; [lia |].
    cbn [column_letters]. destruct (Nat.eqb_spec n 0) as [-> | _]; [lia |].
    cbn [letters_bound] in Hk.
    set (B := letters_bound k) in *.
    pose proof (Nat.div_mod_eq n 26) as Hdm.
    pose proof (Nat.mod_upper_bound n 26) as Hmod.
    assert (∀ m, m ≤ fuel → m ≤ B → length (column_letters fuel m) ≤ k) as Hrec.
    { intros m Hm HB. destruct (decide (m = 0)) as [-> | Hm0].
      - destruct fuel; simpl; lia.
      - apply IH; [lia | done | done]. }
    destruct (Nat.eqb_spec (n mod 26) 0) as [Hr | Hr]; cbn [length].
    + specialize (Hrec (n / 26 - 1)). lia.
    + specialize (Hrec (n / 26)). lia.
Qed.

Lemma forallb_rev' {A} (f : A → bool) (l : list A) :
  forallb f (rev l) = forallb f l.
Proof.
  induction l as [|a l IH]; simpl; [done |].
  rewrite forallb_app, IH. simpl. destruct (f a), (forallb f l); done.
Qed.

Lemma foldl_rev_letters (l : list ascii) :
  foldl (λ acc c, acc * 26 + (nat_of_ascii (to_upper c) - 64)) 0 (rev l) =
  foldr (λ c acc, acc * 26 + letter_value c) 0 l.
Proof.
  induction l as [|c l IH]; [done |].
  cbn [rev foldr]. rewrite foldl_app. cbn [foldl]. by rewrite IH.
Qed.

(** A column letter names the index it was made from. *)
Lemma column_letter_roundtrip (n : nat) (letter : string) :
  get_column_letter n = Ok letter → column_index_from_string letter = Ok n.
Proof.
  unfold get_column_letter, column_index_from_string.
  destruct (Nat.leb_spec 1 n) as [H1 | ?]; [|done].
  destruct (Nat.leb_spec n MAX_COLUMN_INDEX) as [Hmax | ?]; [|done].
  cbn [andb]. intros [= <-].
  rewrite list_ascii_of_string_of_list_ascii.
  destruct (column_letters_spec n n) as [Hval Hcased]; [done |].
  destruct (column_letters_length 3 n n) as [Hl1 Hl3]; [done | done | exact Hmax |].
  rewrite length_rev.
  destruct (Nat.leb_spec 1 (length (column_letters n n))); [|lia].
  destruct (Nat.leb_spec (length (column_letters n n)) 3); [|lia].
  rewrite forallb_rev', Hcased. cbn [andb]. f_equal.
  by rewrite foldl_rev_letters.
Qed.

(** ** Title case *)





(** ** The loop over the directives *)

Lemma format_columns_app F1 F2 df cc :
  format_columns (F1 ++ F2) df cc =
  match format_columns F1 df cc with
  | (Ok cc1, df1) => format_columns F2 df1 cc1
  | (Raise e, df1) => (Raise e, df1)
  end.
Proof.
  revert df cc. induction F1 as [|[c f] F1 IH]; intros df cc; [done |].
  cbn [app format_columns].
  destruct (format_column c f df cc) as [[df1 cc1]|e]; [apply IH | done].
Qed.

Lemma format_column_columns col format df cc df1 cc1 :
  format_column col format df cc = Ok (df1, cc1) →
  columns df1 = columns df ∧ index_len df1 = index_len df.
Proof.
  destruct (String.eqb_spec format "date") as [-> | Hd].
  { intros (_ & j & l & Hpos & Hj & ->)%format_column_date.
    split; [|done]. apply columns_setitem.
    apply list_elem_of_lookup. exists j. apply columns_lookup. eauto. }
  destruct (String.eqb_spec format "currency") as [-> | Hc].
  { by intros [-> _]%format_column_currency. }
  rewrite format_column_other by done. by intros [= <- <-].
Qed.

Lemma format_columns_columns F df cc cc' df' :
  format_columns F df cc = (Ok cc', df') →
  columns df' = columns df ∧ index_len df' = index_len df.
Proof.
  revert df cc. induction F as [|[c f] F IH]; intros df cc; cbn [format_columns].
  - by intros [= <- <-].
  - destruct (format_column c f df cc) as [[df1 cc1]|e] eqn:Hstep; [|done].
    intros [-> ->]%IH. by apply format_column_columns in Hstep.
Qed.

(** The state of the columns after the loop: a column is rewritten by the
    date directive of its name, and by nothing else. *)
Lemma format_columns_frame F df cc cc' df' :
  format_columns F df cc = (Ok cc', df') →
  ∀ j n s, frame df !! j = Some (n, s) →
    ∃ s', frame df' !! j = Some (n, s') ∧
      (((n, "date") ∈ F ∧
        ∃ l, s = DatetimeSeries l ∧ s' = ObjectSeries (strftime_value <$> l)) ∨
       ((n, "date") ∉ F ∧ s' = s)).
Proof.
  revert df cc. induction F as [|[c f] F IH]; intros df cc; cbn [format_columns].
  - intros [= <- <-] j n s Hj. exists s. split; [done |]. right.
    split; [by intros ?%elem_of_nil | done].
  - destruct (format_column c f df cc) as [[df1 cc1]|e] eqn:Hstep; [|done].
    intros Hrest j n s Hj.
    destruct (String.eqb_spec f "date") as [-> | Hd].
    + apply format_column_date in Hstep as (_ & j0 & l0 & Hpos & Hj0 & ->).
      assert (c ∈ columns df) as Hc.
      { apply list_elem_of_lookup. exists j0. apply columns_lookup. eauto. }
      assert (frame (df_setitem c (ObjectSeries (strftime_value <$> l0)) df) !! j =
              Some (if String.eqb n c
                    then (n, ObjectSeries (strftime_value <$> l0)) else (n, s)))
        as Hj1 by (rewrite frame_setitem, list_lookup_fmap, Hj by done; done).
      destruct (String.eqb_spec n c) as [-> | Hne].
      * assert (j = j0) as ->.
        { assert (j ∈ positions c (columns df)) as Hin
            by (apply elem_of_positions, columns_lookup; eauto).
          rewrite Hpos in Hin. by apply list_elem_of_singleton in Hin. }
        assert (s = DatetimeSeries l0) as -> by congruence.
        destruct (IH _ _ Hrest _ _ _ Hj1) as (s' & Hs' & [(_ & l & ? & _) | (Hnot & ->)]);
          [done |].
        exists (ObjectSeries (strftime_value <$> l0)). split; [done |].
        left. split; [by left | eauto].
      * destruct (IH _ _ Hrest _ _ _ Hj1) as (s' & Hs' & Hcase).
        exists s'. split; [done |].
        destruct Hcase as [(Hin & Hl) | (Hnot & ->)].
        -- left. split; [by right | done].
        -- right. split; [|done]. intros [[=] | ?]%elem_of_cons; done.
    + assert (df1 = df) as ->.
      { destruct (String.eqb_spec f "currency") as [-> | Hc].
        - by apply format_column_currency in Hstep as [-> _].
        - rewrite format_column_other in Hstep by done. congruence. }
      destruct (IH _ _ Hrest _ _ _ Hj) as (s' & Hs' & Hcase).
      exists s'. split; [done |].
      destruct Hcase as [(Hin & Hl) | (Hnot & ->)].
      * left. split; [by right | done].
      * right. split; [|done]. intros [[=] | ?]%elem_of_cons; done.
Qed.


(** ** Writing the rows *)

Lemma cells_insert_row (r0 a : nat) (row : list pyval) (m : gmap (nat * nat) Cell)
    (r c : nat) :
  foldl (λ m ic, <[(r0, ic.1) := new_cell ic.2]> m) m (zip (seq a (length row)) row)
    !! (r, c) =
  if decide (r = r0 ∧ a ≤ c < a + length row)
  then new_cell <$> row !! (c - a)
  else m !! (r, c).
Proof.
  revert a m. induction row as [|v row IH]; intros a m.
  - cbn. case_decide; [lia | done].
  - cbn [length seq zip zip_with foldl fst snd]. rewrite IH.
    destruct (decide (r = r0 ∧ S a ≤ c < S a + length row)) as [[-> Hc] | Hnot].
    + rewrite decide_True by lia.
      replace (c - a) with (S (c - S a)) by lia. done.
    + destruct (decide ((r, c) = (r0, a))) as [[= -> ->] | Hne].
      * rewrite lookup_insert_eq, decide_True by (cbn [length]; lia).
        by rewrite Nat.sub_diag.
      * rewrite lookup_insert_ne by done.
        rewrite decide_False; [done |]. intros [-> H]. cbn [length] in H.
        destruct Hnot. split; [done |].
        assert (c ≠ a) by congruence. lia.
Qed.

Lemma cells_ws_append (row : list pyval) (ws : Worksheet) (r c : nat) :
  cells (ws_append row ws) !! (r, c) =
  if decide (r = current_row ws + 1 ∧ 1 ≤ c ≤ length row)
  then new_cell <$> row !! (c - 1)
  else cells ws !! (r, c).
Proof.
  unfold ws_append, enumerate1. cbn [cells]. rewrite cells_insert_row.
  repeat case_decide; try done; lia.
Qed.

Lemma current_row_append_all (rows : list (list pyval)) (ws : Worksheet) :
  current_row (foldl (λ w row, ws_append row w) ws rows) =
  current_row ws + length rows.
Proof.
  revert ws. induction rows as [|row rows IH]; intros ws; cbn [foldl length].
  - lia.
  - rewrite IH. cbn. lia.
Qed.

(** The cells of a worksheet after the rows are appended. *)
Lemma cells_append_all (rows : list (list pyval)) (ws : Worksheet) (r c : nat) :
  cells (foldl (λ w row, ws_append row w) ws rows) !! (r, c) =
  match rows !! (r - (current_row ws + 1)) with
  | Some row =>
      if decide (current_row ws + 1 ≤ r ∧ 1 ≤ c ≤ length row)
      then new_cell <$> row !! (c - 1)
      else cells ws !! (r, c)
  | None => cells ws !! (r, c)
  end.
Proof.
  revert ws. induction rows as [|row rows IH]; intros ws; cbn [foldl].
  - done.
  - rewrite IH, cells_ws_append.
    replace (current_row (ws_append row ws)) with (current_row ws + 1) by done.
    destruct (decide (r ≤ current_row ws + 1)) as [Hle | Hgt].
    + replace (r - (current_row ws + 1)) with 0 by lia.
      replace (r - (current_row ws + 1 + 1)) with 0 by lia.
      cbn [lookup list_lookup].
      destruct (rows !! 0) as [row'|]; repeat case_decide; try done; lia.
    + replace (r - (current_row ws + 1)) with (S (r - (current_row ws + 1 + 1)))
        by lia.
      cbn [lookup list_lookup].
      destruct (rows !! _) as [row'|]; repeat case_decide; try done; lia.
Qed.

(** ** What the formatting passes keep *)

Lemma cell_kept_refl x : cell_kept x x.
Proof. unfold cell_kept. auto. Qed.

Lemma cell_kept_trans x y z : cell_kept x y → cell_kept y z → cell_kept x z.
Proof.
  unfold cell_kept. intros (-> & -> & -> & Hxy) (-> & -> & -> & Hyz).
  split_and!; try done. destruct Hxy as [<- | Hxy], Hyz as [Hyz | Hyz]; auto.
  rewrite Hyz. auto.
Qed.

Lemma sheet_kept_refl ws : sheet_kept ws ws.
Proof.
  intros k. destruct (cells ws !! k) as [x|]; [|by left].
  exists x. split; [done | apply cell_kept_refl].
Qed.

Lemma sheet_kept_trans ws1 ws2 ws3 :
  sheet_kept ws1 ws2 → sheet_kept ws2 ws3 → sheet_kept ws1 ws3.
Proof.
  intros H12 H23 k. specialize (H12 k). specialize (H23 k).
  destruct (cells ws1 !! k) as [x|].
  - destruct H12 as (y & Hy & Hxy). rewrite Hy in H23.
    destruct H23 as (z & Hz & Hyz). exists z. split; [done |].
    by apply (cell_kept_trans x y z).
  - destruct H12 as [H12 | (y & Hy & Hv)].
    + by rewrite H12 in H23.
    + rewrite Hy in H23. destruct H23 as (z & Hz & Hyz). right.
      exists z. split; [done |]. destruct Hyz as (-> & _). done.
Qed.

Lemma sheet_kept_same_cells ws ws' : cells ws' = cells ws → sheet_kept ws ws'.
Proof.
  intros Heq k. rewrite Heq. destruct (cells ws !! k) as [x|]; [|by left].
  exists x. split; [done | apply cell_kept_refl].
Qed.

Lemma sheet_kept_fetch (ks : list (nat * nat)) ws :
  sheet_kept ws (foldl (λ w k, ws_cell k.1 k.2 w) ws ks).
Proof.
  intros [r c]. rewrite cells_fetch. unfold cell_at. cbn [fst snd].
  destruct (cells ws !! (r, c)) as [x|] eqn:E.
  - exists x. split; [by case_decide | apply cell_kept_refl].
  - case_decide; [right | by left]. by eexists.
Qed.

Lemma sheet_kept_currency (ks : list (nat * nat)) ws :
  sheet_kept ws
    (foldl (λ w k, update_cell (set_number_format currency_format) k.1 k.2 w) ws ks).
Proof.
  intros k. rewrite cells_update_all by done.
  destruct (cells ws !! k) as [x|] eqn:E.
  - case_decide.
    + eexists. split; [done |]. unfold cell_kept. simpl. auto.
    + exists x. split; [done | apply cell_kept_refl].
  - case_decide; by left.
Qed.

Lemma sheet_kept_is_Some ws ws' k :
  sheet_kept ws ws' → is_Some (cells ws !! k) → is_Some (cells ws' !! k).
Proof.
  intros Hk [x Hx]. specialize (Hk k). rewrite Hx in Hk.
  destruct Hk as (x' & -> & _). eauto.
Qed.


(** ** Loops that may raise *)

Lemma for_each_invariant {A S} (R : S → S → Prop)
    (body : A → S → outcome unit * S) (items : list A) (s : S) :
  (∀ s, R s s) → (∀ s1 s2 s3, R s1 s2 → R s2 s3 → R s1 s3) →
  (∀ x s, R s (body x s).2) →
  R s (for_each body items s).2.
Proof.
  intros Hrefl Htrans Hbody. revert s.
  induction items as [|x items IH]; intros s; cbn [for_each]; [apply Hrefl |].
  pose proof (Hbody x s) as Hx.
  destruct (body x s) as [[[]|e] s1]; cbn [snd] in *; [|done].
  by apply (Htrans s s1).
Qed.

Lemma for_each_raises {A S} (P : exn → Prop)
    (body : A → S → outcome unit * S) (items : list A) (s : S) (e : exn) :
  (∀ x s e, (body x s).1 = Raise e → P e) →
  (for_each body items s).1 = Raise e → P e.
Proof.
  intros Hbody. revert s.
  induction items as [|x items IH]; intros s; cbn [for_each]; [done |].
  pose proof (Hbody x s) as Hx.
  destruct (body x s) as [[[]|e'] s1]; cbn [fst] in *; [apply IH |].
  intros [= <-]. by apply Hx.
Qed.

Lemma column_index_raises s e :
  column_index_from_string s = Raise e → e = ValueError.
Proof.
  unfold column_index_from_string. case_match; [done | congruence].
Qed.

Lemma get_column_letter_raises n e :
  get_column_letter n = Raise e → e = ValueError.
Proof.
  unfold get_column_letter. case_match; [done | congruence].
Qed.

Lemma format_currency_kept i ws : sheet_kept ws (format_currency i ws).2.
Proof.
  unfold format_currency, ws_getitem.
  destruct (column_index_from_string i) as [c|e]; cbn [snd]; [|apply sheet_kept_refl].
  eapply sheet_kept_trans; [|apply sheet_kept_currency].
  rewrite column_tuple_fetch. apply sheet_kept_fetch.
Qed.

Lemma format_currency_raises i ws e :
  (format_currency i ws).1 = Raise e → e = ValueError.
Proof.
  unfold format_currency, ws_getitem.
  destruct (column_index_from_string i) as [c|e'] eqn:E; cbn [fst]; [done |].
  intros [= <-]. by apply column_index_raises in E.
Qed.

Lemma adjust_column_kept fr col ws : sheet_kept ws (adjust_column fr col ws).2.
Proof.
  unfold adjust_column, ws_getitem.
  destruct (get_column_letter col) as [column|e]; cbn [snd]; [|apply sheet_kept_refl].
  destruct (column_index_from_string column) as [c|e]; cbn [snd];
    [|apply sheet_kept_refl].
  eapply sheet_kept_trans; [|by apply sheet_kept_same_cells].
  rewrite column_tuple_fetch. apply sheet_kept_fetch.
Qed.

Lemma adjust_column_raises fr col ws e :
  (adjust_column fr col ws).1 = Raise e → e = ValueError.
Proof.
  unfold adjust_column, ws_getitem.
  destruct (get_column_letter col) as [column|e'] eqn:E1; cbn [fst].
  - destruct (column_index_from_string column) as [c|e''] eqn:E2; cbn [fst]; [done |].
    intros [= <-]. by apply column_index_raises in E2.
  - intros [= <-]. by apply get_column_letter_raises in E1.
Qed.

(** The currency pass gives its format to every cell of a currency column
    that the worksheet holds. *)
Lemma format_currency_sets i c ws r :
  column_index_from_string i = Ok c → 1 ≤ r → is_Some (cells ws !! (r, c)) →
  ∃ x, cells (format_currency i ws).2 !! (r, c) = Some x ∧
       number_format x = currency_format.
Proof.
  intros Hi Hr Hcell. unfold format_currency, ws_getitem. rewrite Hi. cbn [snd].
  rewrite cells_update_all by done.
  assert (r ≤ max_row ws) as Hmax by (by apply (max_index_le fst (cells ws) (r, c))).
  rewrite decide_True
    by (apply list_elem_of_fmap; exists r; split; [done | apply elem_of_seq; lia]).
  rewrite column_tuple_fetch.
  destruct (sheet_kept_is_Some _ _ (r, c)
              (sheet_kept_fetch ((λ r, (r, c)) <$> seq 1 (max_row ws)) ws) Hcell)
    as [x ->].
  by eexists.
Qed.

Lemma for_each_currency_sets cc ws ws' letter c r :
  for_each format_currency cc ws = (Ok tt, ws') →
  letter ∈ cc → column_index_from_string letter = Ok c →
  1 ≤ r → is_Some (cells ws !! (r, c)) →
  ∃ x, cells ws' !! (r, c) = Some x ∧ number_format x = currency_format.
Proof.
  revert ws. induction cc as [|i cc IH]; intros ws Hrun Hin Hc Hr Hcell;
    [by apply elem_of_nil in Hin |].
  cbn [for_each] in Hrun.
  pose proof (format_currency_kept i ws) as Hkept.
  pose proof (format_currency_sets i c ws r) as Hsets.
  destruct (format_currency i ws) as [[[]|e] ws1]; cbn [snd] in *; [|done].
  apply elem_of_cons in Hin as [-> | Hin].
  - destruct (Hsets Hc Hr Hcell) as (x & Hx & Hnf).
    pose proof (for_each_invariant sheet_kept format_currency cc ws1
                  sheet_kept_refl sheet_kept_trans format_currency_kept) as Hrest.
    rewrite Hrun in Hrest. cbn [snd] in Hrest. specialize (Hrest (r, c)).
    rewrite Hx in Hrest. destruct Hrest as (x' & Hx' & _ & _ & _ & Hnf').
    exists x'. split; [done |]. destruct Hnf'; congruence.
  - apply (IH ws1); try done. by apply (sheet_kept_is_Some ws).
Qed.

(** ** The rows of a DataFrame *)

Lemma transpose_lookup (data : list (list pyval)) (i : nat) :
  data ≠ [] → Forall (λ c, i < length c) data →
  ∃ row, transpose data !! i = Some row ∧
         ∀ j c, data !! j = Some c → row !! j = c !! i.
Proof.
  induction data as [|c rest IH]; [done |]. intros _ Hlen.
  apply Forall_cons in Hlen as [Hc Hrest].
  destruct (lookup_lt_is_Some_2 c i Hc) as [v Hv].
  destruct rest as [|c' rest'].
  - exists [v]. split.
    + cbn [transpose]. by rewrite list_lookup_fmap, Hv.
    + intros [|j] c0 Hj; [|done]. injection Hj as <-. by rewrite Hv.
  - destruct (IH ltac:(done) Hrest) as (row & Hrow & Hcols).
    exists (v :: row). split.
    + change (transpose (c :: c' :: rest'))
        with (zip_with cons c (transpose (c' :: rest'))).
      by rewrite lookup_zip_with, Hv, Hrow.
    + intros [|j] c0 Hj.
      * injection Hj as <-. by rewrite Hv.
      * by apply Hcols.
Qed.

(** The cell of the entry [i] of the column [j], once the rows of a
    well-formed DataFrame are appended to a worksheet. *)
Lemma cells_append_frame (df : DataFrame) (ws : Worksheet) (i j : nat)
    (n : string) (s : Series) (v : pyval) :
  df_wf df → frame df !! j = Some (n, s) → series_values s !! i = Some v →
  cells (foldl (λ w row, ws_append row w) ws (dataframe_to_rows df))
    !! (current_row ws + 2 + i, j + 1) = Some (new_cell v).
Proof.
  intros Hwf Hj Hv. rewrite cells_append_all. unfold dataframe_to_rows.
  replace (current_row ws + 2 + i - (current_row ws + 1)) with (S i) by lia.
  set (data := series_values <$> (frame df).*2).
  change ((?h :: transpose data) !! S i) with (transpose data !! i).
  assert (data !! j = Some (series_values s)) as Hdj.
  { unfold data. by rewrite !list_lookup_fmap, Hj. }
  assert (i < index_len df) as Hi.
  { rewrite <- (Hwf (n, s)) by (by apply list_elem_of_lookup_2 in Hj).
    by apply lookup_lt_Some in Hv. }
  destruct (transpose_lookup data i) as (row & -> & Hrow).
  - intros Hnil. by rewrite Hnil in Hdj.
  - apply Forall_forall. intros c Hc. unfold data in Hc.
    apply list_elem_of_fmap in Hc as (s0 & -> & Hs0).
    apply list_elem_of_fmap in Hs0 as ([n0 s1] & -> & Hin).
    by rewrite (Hwf _ Hin).
  - specialize (Hrow j _ Hdj). rewrite Hv in Hrow.
    rewrite decide_True by (apply lookup_lt_Some in Hrow; lia).
    replace (j + 1 - 1) with j by lia. by rewrite Hrow.
Qed.

(** The cell of the header of the column [j]. *)
Lemma cells_append_header (df : DataFrame) (ws : Worksheet) (j : nat) (n : string) :
  columns df !! j = Some n →
  cells (foldl (λ w row, ws_append row w) ws (dataframe_to_rows df))
    !! (current_row ws + 1, j + 1) = Some (new_cell (VStr n)).
Proof.
  intros Hj. rewrite cells_append_all. unfold dataframe_to_rows.
  rewrite Nat.sub_diag.
  change ((?h :: ?t) !! 0) with (Some h).
  assert ((VStr <$> columns df) !! j = Some (VStr n)) as Hrow
    by (by rewrite list_lookup_fmap, Hj).
  lazy beta iota.
  rewrite decide_True by (apply lookup_lt_Some in Hrow; lia).
  replace (j + 1 - 1) with j by lia. by rewrite Hrow.
Qed.

(** ** create_workbook, stage by stage *)

Lemma create_workbook_stages fr ws df F :
  match format_columns F (set_columns (str_title <$> columns df) df) [] with
  | (Raise e, df1) => create_workbook fr ws df F = (Raise e, ws, df1)
  | (Ok cc, df1) =>
      let ws1 := foldl (λ w row, ws_append row w) ws (dataframe_to_rows df1) in
      ∃ o ws', create_workbook fr ws df F = (o, ws', df1) ∧
        sheet_kept ws1 ws' ∧
        (∀ e, o = Raise e → e = ValueError) ∧
        (o = Ok tt → ∀ letter c r,
           letter ∈ cc → column_index_from_string letter = Ok c → 1 ≤ r →
           is_Some (cells ws1 !! (r, c)) →
           ∃ x, cells ws' !! (r, c) = Some x ∧ number_format x = currency_format)
  end.
Proof.
  unfold create_workbook.
  destruct (format_columns F _ []) as [[cc|e] df1]; [|done].
  set (ws1 := foldl _ ws (dataframe_to_rows df1)). cbn zeta.
  destruct (get_column_letter (max_column ws1)) as [last|e] eqn:Hlast.
  2:{ exists (Raise e), ws1. split_and!; [done | apply sheet_kept_refl | | done].
      intros e' [= <-]. by apply get_column_letter_raises in Hlast. }
  unfold add_table. cbn [displayName].
  destruct (existsb _ _).
  { exists (Raise ValueError), ws1.
    split_and!; [done | apply sheet_kept_refl | congruence | done]. }
  set (ws2 := Build_Worksheet _ _ _ _ _).
  assert (sheet_kept ws1 ws2) as H12 by (by apply sheet_kept_same_cells).
  pose proof (for_each_invariant sheet_kept format_currency cc ws2
                sheet_kept_refl sheet_kept_trans format_currency_kept) as H23.
  pose proof (for_each_raises (λ e, e = ValueError) format_currency cc ws2) as Hr3.
  pose proof (for_each_currency_sets cc ws2) as Hcur.
  destruct (for_each format_currency cc ws2) as [[[]|e] ws3]; cbn [fst snd] in *.
  2:{ exists (Raise e), ws3. split_and!; [done | | | done].
      - by apply (sheet_kept_trans ws1 ws2).
      - intros e' [= <-]. apply (Hr3 e); [|done]. apply format_currency_raises. }
  pose proof (for_each_invariant sheet_kept (adjust_column fr)
                (seq 1 (max_column ws3)) ws3
                sheet_kept_refl sheet_kept_trans (adjust_column_kept fr)) as H34.
  pose proof (for_each_raises (λ e, e = ValueError) (adjust_column fr)
                (seq 1 (max_column ws3)) ws3) as Hr4.
  destruct (for_each (adjust_column fr) _ ws3) as [o ws4]; cbn [fst snd] in *.
  exists o, ws4. split_and!; [done | | |].
  - apply (sheet_kept_trans ws1 ws3); [|done]. by apply (sheet_kept_trans ws1 ws2).
  - intros e ->. apply (Hr4 e); [|done]. apply adjust_column_raises.
  - intros -> letter c r Hin Hc Hr Hcell.
    destruct (Hcur ws3 letter c r) as (x & Hx & Hnf); try done.
    specialize (H34 (r, c)). rewrite Hx in H34.
    destruct H34 as (x' & Hx' & _ & _ & _ & Hnf').
    exists x'. split; [done |]. destruct Hnf'; congruence.
Qed.

(** ** The directives, as a whole *)



Lemma series_values_strftime (l : list (option Timestamp)) :
  length (series_values (ObjectSeries (strftime_value <$> l))) =
  length (series_values (DatetimeSeries l)).
Proof. cbn [series_values]. by rewrite !length_fmap. Qed.

Lemma format_columns_wf F df cc cc' df' :
  format_columns F df cc = (Ok cc', df') → df_wf df → df_wf df'.
Proof.
  intros Hrun Hwf [n s'] [j Hj]%list_elem_of_lookup.
  pose proof (format_columns_columns _ _ _ _ _ Hrun) as [Hcols Hlen].
  assert (is_Some (frame df !! j)) as [[n0 s] Hj0].
  { apply lookup_lt_is_Some. apply lookup_lt_Some in Hj.
    apply (f_equal length) in Hcols. unfold columns in Hcols.
    rewrite !length_fmap in Hcols. lia. }
  destruct (format_columns_frame _ _ _ _ _ Hrun _ _ _ Hj0) as (s1 & Hj1 & Hcase).
  rewrite Hj in Hj1. injection Hj1 as <- <-.
  pose proof (Hwf (n, s) ltac:(by apply list_elem_of_lookup_2 in Hj0)) as Hs.
  cbn [snd] in *. rewrite Hlen.
  destruct Hcase as [(_ & l & -> & ->) | (_ & ->)]; [|done].
  by rewrite series_values_strftime.
Qed.

Lemma df_wf_set_columns (f : string → string) df :
  df_wf df → df_wf (set_columns (f <$> columns df) df).
Proof.
  intros Hwf ns. rewrite frame_set_columns.
  intros ([n s] & -> & Hin)%list_elem_of_fmap. apply (Hwf _ Hin).
Qed.



(** ** Widths *)

(** What the [try] block measures: the length of a text, and nothing for
    any other value. *)
Lemma measure_spec fr (m : nat) (v : pyval) :
  measure fr m v =
  match v with
  | VStr s => Nat.max m (String.length s)
  | _ => m
  end.
Proof.
  unfold measure. destruct v as [|s| | | | |]; cbn [py_len py_str];
    try (by destruct (_ <? _)).
  destruct (Nat.ltb_spec m (String.length s)); lia.
Qed.

(** ** The date pattern *)



(** ** Properties of [format_totals] *)

(** C8. [format_totals] is idempotent: on a worksheet that one call has
    styled without raising, a second call raises nothing and leaves every
    cell, font and fill included, exactly as the first call left it. *)
Theorem format_totals_idempotent ws ws1 :
  format_totals ws = (Ok tt, ws1) →
  format_totals ws1 = (Ok tt, ws1).
Proof.
  intros Hrun. destruct (format_totals_bounds ws ws1 Hrun) as [Hmr Hmc].
  unfold format_totals in *. rewrite Hmr, Hmc.
  destruct (max_column ws) as [|n] eqn:Hcols.
  { destruct (seq 2 (max_row ws - 1)) as [|r0 rest]; [done |].
    cbn [for_each] in Hrun. unfold format_row in Hrun. simpl in Hrun. done. }
  rewrite seq_S_head in *.
  apply format_rows_ok in Hrun as [Htexts Hks]; [|apply NoDup_seq].
  assert (∀ r c, r ∈ seq 2 (max_row ws - 1) → c ∈ 1 :: seq 2 n →
            cells ws1 !! (r, c) =
            Some (styled (is_totals_row ws r) (cell_at ws r c))) as Hin.
  { intros r c Hr Hc. rewrite Hks. cbn [fst snd]. by rewrite decide_True. }
  assert (∀ r, r ∈ seq 2 (max_row ws - 1) →
            value (cell_at ws1 r 1) = value (cell_at ws r 1)) as Hval.
  { intros r Hr. unfold cell_at at 1.
    rewrite (Hin r 1) by set_solver. apply value_styled. }
  apply for_each_fixed. intros r Hr. apply format_row_fixed.
  - rewrite Hval by done. by apply Htexts.
  - intros c Hc. eexists. split; [by apply Hin |].
    unfold is_totals_row at 1. rewrite Hval by done.
    apply styled_idemp.
Qed.

(** C9. When the first cell of some data row (a row from 2 to [max_row])
    holds anything but a text, an empty cell or a number for instance,
    [format_totals] raises [TypeError]: the test ["Total" in cell_value] is
    made on the value as it is. *)
Theorem format_totals_type_error ws r :
  cells_from_1 ws →
  2 ≤ r ≤ max_row ws →
  is_text (value (cell_at ws r 1)) = false →
  (format_totals ws).1 = Raise TypeError.
Proof.
  intros Hwf Hr Hv. unfold format_totals.
  pose proof (max_column_from_1 ws Hwf) as Hc.
  destruct (max_column ws) as [|n]; [lia |].
  rewrite seq_S_head. apply (format_rows_type_error _ _ _ r); [|done].
  apply elem_of_seq. lia.
Qed.

Lemma format_totals_idempotent_witness :
  format_totals sample_written = (Ok tt, (format_totals sample_written).2) ∧
  format_totals (format_totals sample_written).2
    = (Ok tt, (format_totals sample_written).2).
Proof.
  assert (format_totals sample_written = (Ok tt, (format_totals sample_written).2))
    as Hrun by (vm_compute; reflexivity).
  split; [exact Hrun |].
  exact (format_totals_idempotent sample_written _ Hrun).
Defined.

Lemma qty_written_from_1 : cells_from_1 qty_written.
Proof.
  intros k [x Hk]. apply elem_of_map_to_list in Hk.
  remember (map_to_list (cells qty_written)) as l eqn:Hl.
  vm_compute in Hl. subst l.
  repeat (apply elem_of_cons in Hk as [[= -> _] | Hk]; [cbn; lia |]).
  by apply elem_of_nil in Hk.
Qed.

Lemma format_totals_type_error_witness :
  cells_from_1 qty_written ∧ 2 ≤ 2 ≤ max_row qty_written ∧
  value (cell_at qty_written 2 1) = VInt 1234567 ∧
  (format_totals qty_written).1 = Raise TypeError.
Proof.
  assert (2 ≤ 2 ≤ max_row qty_written) as Hrow by (vm_compute; lia).
  split; [exact qty_written_from_1 |]. split; [exact Hrow |].
  split; [vm_compute; reflexivity |].
  apply (format_totals_type_error qty_written 2 qty_written_from_1 Hrow).
  vm_compute. reflexivity.
Defined.

(** ** Properties of [create_workbook] *)







Lemma create_workbook_ok fr ws df formats ws' df' :
  create_workbook fr ws df formats = (Ok tt, ws', df') →
  ∃ cc, format_columns formats (set_columns (str_title <$> columns df) df) []
          = (Ok cc, df') ∧
        sheet_kept (foldl (λ w row, ws_append row w) ws (dataframe_to_rows df')) ws' ∧
        ∀ letter c r,
          letter ∈ cc → column_index_from_string letter = Ok c → 1 ≤ r →
          is_Some (cells (foldl (λ w row, ws_append row w) ws (dataframe_to_rows df'))
                     !! (r, c)) →
          ∃ x, cells ws' !! (r, c) = Some x ∧ number_format x = currency_format.
Proof.
  intros Hrun. pose proof (create_workbook_stages fr ws df formats) as Hst.
  destruct (format_columns formats _ []) as [[cc|e] df1].
  - destruct Hst as (o & ws'' & Hrun' & Hkept & _ & Hcur).
    rewrite Hrun in Hrun'. injection Hrun' as <- <- <-.
    exists cc. split_and!; [done | done | by apply Hcur].
  - rewrite Hst in Hrun. discriminate Hrun.
Qed.


Lemma sample_df_wf : df_wf sample_df.
Proof.
  intros ns Hns. unfold sample_df in Hns. cbn [frame] in Hns.
  repeat (apply elem_of_cons in Hns as [-> | Hns]); try reflexivity.
  by apply elem_of_nil in Hns.
Qed.

Lemma sample_run_ok : sample_run = (Ok tt, sample_written, sample_run.2).
Proof. vm_compute. reflexivity. Qed.










(** C5, on [create_workbook(ws, qty_df)]. A cell that is not text never
    enters the maximum, although it has a rendered length: the column of
    header "Qty" and value 1234567, rendered in 7 characters, gets the
    width (3 + 2) * 1.4 of its header, not (7 + 2) * 1.4. *)
Theorem width_skips_numbers fr :
  (∀ m v, is_text v = false → measure fr m v = m) ∧
  (create_workbook fr (empty_worksheet "Sheet") qty_df []).1.1 = Ok tt ∧
  value (cell_at (create_workbook fr (empty_worksheet "Sheet") qty_df []).1.2 2 1)
    = VInt 1234567 ∧
  String.length (py_str fr (VInt 1234567)) = 7 ∧
  column_dimensions (create_workbook fr (empty_worksheet "Sheet") qty_df []).1.2
    !! "A" = Some (adjusted_width 3) ∧
  adjusted_width 3 ≠ adjusted_width 7.
Proof.
  split_and!.
  - intros m v Hv. rewrite measure_spec. by destruct v.
  - vm_compute. reflexivity.
  - vm_compute. reflexivity.
  - vm_compute. reflexivity.
  - vm_compute. reflexivity.
  - intros Heq. apply (f_equal (λ x, PrimFloat.ltb x 10)) in Heq.
    vm_compute in Heq. discriminate Heq.
Qed.

(** ** The save loop *)


Lemma save_loop_step sr il fuel w :
  saving w = true →
  save_loop sr il (S fuel) w =
  match save_step sr il w with
  | Ok w1 => save_loop sr il fuel w1
  | Raise e => Some (Raise e)
  end.
Proof. intros Hs. cbn [save_loop]. by rewrite Hs. Qed.

(** The console after a round that found the file locked and was answered
    with 'y'. *)
Lemma save_step_retry sr il w :
  sr (attempts w) = Some PermissionError → il (lines_read w) = Some "y" →
  ∃ w1, save_step sr il w = Ok w1 ∧ saving w1 = saving w ∧
        attempts w1 = S (attempts w) ∧ lines_read w1 = S (lines_read w) ∧
        (∀ k, saved_after w1 k = saved_after w (S k)) ∧
        (∀ k, abandoned_after w1 k = abandoned_after w (S k)).
Proof.
  intros Hsr Hil. unfold save_step. rewrite Hsr, Hil. cbn.
  eexists. split; [done |]. cbn. split_and!; try done.
  - intros k. unfold saved_after. cbn. f_equal; [lia | lia |].
    by rewrite <- app_assoc.
  - intros k. unfold abandoned_after. cbn. f_equal; [lia | lia |].
    by rewrite <- app_assoc.
Qed.







(** * Further properties *)

(** ** More on [format_totals] *)

Lemma format_rows_all_text cols rows ws :
  (∀ r, r ∈ rows → is_text (value (cell_at ws r 1)) = true) →
  (for_each (format_row (1 :: cols)) rows ws).1 = Ok tt.
Proof.
  revert ws. induction rows as [|r rows IH]; intros ws Htext; [done |].
  cbn [for_each].
  destruct (format_row_cases cols r ws) as [[Hf _] | (_ & Hok & Hcells)].
  { rewrite Htext in Hf by (by left). discriminate Hf. }
  destruct (format_row (1 :: cols) r ws) as [o ws1]. cbn [fst snd] in *. subst o.
  apply IH. intros r' Hr'. unfold cell_at at 1. rewrite Hcells. cbn [fst snd].
  case_decide as Hk.
  - destruct Hk as [-> _]. cbn. rewrite value_styled. apply Htext. by left.
  - apply Htext. by right.
Qed.

Lemma format_row_frame cols r ws :
  title (format_row cols r ws).2 = title ws ∧
  tables (format_row cols r ws).2 = tables ws ∧
  column_dimensions (format_row cols r ws).2 = column_dimensions ws.
Proof.
  pose proof (fetch_frame ((λ c, (r, c)) <$> cols) ws) as Hrow.
  rewrite <- row_tuple_fetch in Hrow. cbn zeta in Hrow.
  unfold format_row. destruct cols as [|c0 cols]; [done |].
  destruct (py_contains "Total" _) as [[|]|e]; cbn [snd]; try done.
  destruct Hrow as (Ht & Htab & Hdim).
  rewrite <- Ht, <- Htab, <- Hdim.
  generalize (row_tuple r (c0 :: cols) ws). generalize (c0 :: cols).
  intros l. induction l as [|c l IHl]; intros w; cbn [foldl]; [done |].
  destruct (IHl (highlight_cell r c w)) as (-> & -> & ->). done.
Qed.

Lemma for_each_preserves {A S} (I : S → Prop)
    (body : A → S → outcome unit * S) (items : list A) (s : S) :
  (∀ x s, x ∈ items → I s → I (body x s).2) →
  I s → I (for_each body items s).2.
Proof.
  revert s. induction items as [|x items IH]; intros s Hbody Hs; [done |].
  cbn [for_each]. pose proof (Hbody x s ltac:(by left) Hs) as Hx.
  destruct (body x s) as [[[]|e] s1]; cbn [snd] in *; [|done].
  apply IH; [|done]. intros y s' Hy. apply Hbody. by right.
Qed.

(** X1. [format_totals] returns exactly when the first cell of every row
    after the header holds text. *)
Theorem format_totals_ok_iff ws :
  cells_from_1 ws →
  (format_totals ws).1 = Ok tt ↔
  ∀ r, 2 ≤ r ≤ max_row ws → is_text (value (cell_at ws r 1)) = true.
Proof.
  intros Hfrom. pose proof (max_column_from_1 ws Hfrom) as Hcols.
  unfold format_totals. destruct (max_column ws) as [|n]; [lia |].
  rewrite seq_S_head. split.
  - intros Hok r Hr. destruct (is_text (value (cell_at ws r 1))) eqn:Htext; [done |].
    rewrite (format_rows_type_error _ _ ws r) in Hok; [done | | done].
    apply elem_of_seq. lia.
  - intros Htext. apply format_rows_all_text. intros r Hr%elem_of_seq.
    apply Htext. lia.
Qed.

Lemma sample_written_from_1 : cells_from_1 sample_written.
Proof.
  intros k [x Hk]. apply elem_of_map_to_list in Hk.
  remember (map_to_list (cells sample_written)) as l eqn:Hl.
  vm_compute in Hl. subst l.
  repeat (apply elem_of_cons in Hk as [[= -> _] | Hk]; [cbn; lia |]).
  by apply elem_of_nil in Hk.
Qed.

Lemma format_totals_ok_iff_witness :
  cells_from_1 sample_written ∧
  ∀ r, 2 ≤ r ≤ max_row sample_written →
       is_text (value (cell_at sample_written r 1)) = true.
Proof.
  split; [exact sample_written_from_1 |].
  apply (format_totals_ok_iff sample_written sample_written_from_1).
  vm_compute. reflexivity.
Defined.

(** X2. A call of [format_totals] that returns has changed fonts and fills
    only: every cell keeps its value and its number format, the header row
    is as it was, even when its first cell contains "Total", and the
    worksheet keeps its title, tables, column widths and dimensions. *)
Theorem format_totals_frame ws ws' :
  format_totals ws = (Ok tt, ws') →
  (∀ r c, value (cell_at ws' r c) = value (cell_at ws r c) ∧
          number_format (cell_at ws' r c) = number_format (cell_at ws r c)) ∧
  (∀ c, cells ws' !! (1, c) = cells ws !! (1, c)) ∧
  title ws' = title ws ∧ tables ws' = tables ws ∧
  column_dimensions ws' = column_dimensions ws ∧
  max_row ws' = max_row ws ∧ max_column ws' = max_column ws.
Proof.
  intros Hrun. pose proof (format_totals_cells ws ws' Hrun) as Hcells.
  split_and!.
  - intros r c. specialize (Hcells r c). unfold cell_at at 1 3.
    case_decide; rewrite Hcells; [|done]. cbn. by destruct (is_totals_row ws r).
  - intros c. specialize (Hcells 1 c). rewrite decide_False in Hcells by lia. done.
  - replace ws' with (format_totals ws).2 by (by rewrite Hrun). unfold format_totals.
    apply (for_each_preserves (λ w, title w = title ws)); [|done].
    intros r w _ <-. apply format_row_frame.
  - replace ws' with (format_totals ws).2 by (by rewrite Hrun). unfold format_totals.
    apply (for_each_preserves (λ w, tables w = tables ws)); [|done].
    intros r w _ <-. apply format_row_frame.
  - replace ws' with (format_totals ws).2 by (by rewrite Hrun). unfold format_totals.
    apply (for_each_preserves (λ w, column_dimensions w = column_dimensions ws));
      [|done].
    intros r w _ <-. apply format_row_frame.
  - by apply format_totals_bounds.
  - by apply format_totals_bounds.
Qed.

Lemma format_totals_frame_witness :
  format_totals sample_written = (Ok tt, (format_totals sample_written).2) ∧
  value (cell_at (format_totals sample_written).2 5 2) = VFloat 3649.5 ∧
  max_row (format_totals sample_written).2 = max_row sample_written.
Proof.
  assert (format_totals sample_written = (Ok tt, (format_totals sample_written).2))
    as Hrun by (vm_compute; reflexivity).
  split; [exact Hrun |].
  destruct (format_totals_frame sample_written _ Hrun)
    as (Hvalues & _ & _ & _ & _ & Hrows & _).
  split; [|exact Hrows].
  destruct (Hvalues 5 2) as [Hv _]. rewrite Hv. vm_compute. reflexivity.
Defined.

(** ** More on the save loop *)

(** X5. With the file locked at every attempt and 'y' for every answer, the
    loop is still running after any number of rounds. *)
Theorem save_loop_never_ends save_result input_line fuel w :
  saving w = true →
  (∀ i, save_result (attempts w + i) = Some PermissionError) →
  (∀ i, input_line (lines_read w + i) = Some "y") →
  save_loop save_result input_line fuel w = None.
Proof.
  revert w. induction fuel as [|fuel IH]; intros w Hs Hlocked Hyes.
  { cbn. by rewrite Hs. }
  rewrite save_loop_step by done.
  pose proof (Hlocked 0) as Hsr. pose proof (Hyes 0) as Hil.
  rewrite Nat.add_0_r in Hsr, Hil.
  destruct (save_step_retry save_result input_line w Hsr Hil)
    as (w1 & -> & Hs1 & Ha & Hl & _).
  apply IH; [congruence | |].
  - intros i. rewrite Ha. replace (S (attempts w) + i) with (attempts w + S i) by lia.
    apply Hlocked.
  - intros i. rewrite Hl.
    replace (S (lines_read w) + i) with (lines_read w + S i) by lia. apply Hyes.
Qed.

Lemma save_loop_never_ends_witness :
  save_loop (λ _, Some PermissionError) answers_yes 50 console0 = None.
Proof.
  apply (save_loop_never_ends (λ _, Some PermissionError) answers_yes 50 console0).
  - reflexivity.
  - intros i. reflexivity.
  - intros i. reflexivity.
Defined.

Lemma for_each_app {A S} (body : A → S → outcome unit * S) (l1 l2 : list A) (s : S) :
  for_each body (l1 ++ l2) s =
  match for_each body l1 s with
  | (Ok _, s1) => for_each body l2 s1
  | (Raise e, s1) => (Raise e, s1)
  end.
Proof.
  revert s. induction l1 as [|x l1 IH]; intros s; [done |].
  cbn [app for_each]. destruct (body x s) as [[[]|e] s1]; [apply IH | done].
Qed.

(** X3. [format_totals] stops at the first row whose first cell is no text:
    it raises TypeError there, with the rows above styled already and the
    rows below as they were. *)
Theorem format_totals_stops ws r0 :
  cells_from_1 ws → 2 ≤ r0 ≤ max_row ws →
  is_text (value (cell_at ws r0 1)) = false →
  (∀ r, 2 ≤ r < r0 → is_text (value (cell_at ws r 1)) = true) →
  (format_totals ws).1 = Raise TypeError ∧
  ∀ r c, 1 ≤ c ≤ max_column ws →
    (2 ≤ r < r0 →
       cells (format_totals ws).2 !! (r, c)
         = Some (styled (is_totals_row ws r) (cell_at ws r c))) ∧
    (r0 < r → cells (format_totals ws).2 !! (r, c) = cells ws !! (r, c)).
Proof.
  intros Hfrom Hr0 Hbad Hgood.
  pose proof (max_column_from_1 ws Hfrom) as Hcols.
  unfold format_totals. destruct (max_column ws) as [|n] eqn:Hmc; [lia |].
  rewrite seq_S_head.
  replace (max_row ws - 1) with ((r0 - 2) + S (max_row ws - r0)) by lia.
  rewrite seq_app. replace (2 + (r0 - 2)) with r0 by lia.
  cbn [seq]. rewrite for_each_app.
  pose proof (format_rows_all_text (seq 2 n) (seq 2 (r0 - 2)) ws) as Hok.
  pose proof (format_rows_ok (seq 2 n) (seq 2 (r0 - 2)) ws) as Hks.
  destruct (for_each (format_row (1 :: seq 2 n)) (seq 2 (r0 - 2)) ws)
    as [o ws1]. cbn [fst] in Hok.
  assert (o = Ok tt) as ->
    by (apply Hok; intros r Hr%elem_of_seq; apply Hgood; lia).
  destruct (Hks ws1 (NoDup_seq _ _) eq_refl) as [_ Hcells].
  assert (is_text (value (cell_at ws1 r0 1)) = false) as Hbad1.
  { rewrite (cell_at_cells ws ws1); [done |]. rewrite Hcells. cbn [fst snd].
    rewrite decide_False; [done |]. intros [Hin%elem_of_seq _]. lia. }
  cbn [for_each]. rewrite (format_row_not_text _ _ _ Hbad1). cbn [fst snd].
  split; [done |]. intros r c Hc.
  rewrite row_tuple_fetch, cells_fetch, Hcells. cbn [fst snd].
  assert (c ∈ 1 :: seq 2 n) as Hcin
    by (rewrite <- seq_S_head; apply elem_of_seq; lia).
  split.
  - intros Hr. rewrite decide_False.
    + rewrite decide_True; [done |]. split; [apply elem_of_seq; lia | done].
    + intros (c' & [= -> _] & _)%list_elem_of_fmap. lia.
  - intros Hr. rewrite decide_False.
    + rewrite decide_False; [done |]. intros [Hin%elem_of_seq _]. lia.
    + intros (c' & [= -> _] & _)%list_elem_of_fmap. lia.
Qed.

Lemma mixed_written_from_1 : cells_from_1 mixed_written.
Proof.
  intros k [x Hk]. apply elem_of_map_to_list in Hk.
  remember (map_to_list (cells mixed_written)) as l eqn:Hl.
  vm_compute in Hl. subst l.
  repeat (apply elem_of_cons in Hk as [[= -> _] | Hk]; [cbn; lia |]).
  by apply elem_of_nil in Hk.
Qed.

Lemma format_totals_stops_witness :
  (format_totals mixed_written).1 = Raise TypeError ∧
  font <$> cells (format_totals mixed_written).2 !! (2, 1) = Some Font_bold ∧
  font <$> cells (format_totals mixed_written).2 !! (4, 1) = Some DEFAULT_FONT.
Proof.
  destruct (format_totals_stops mixed_written 3 mixed_written_from_1)
    as [Hraise Hcells].
  - vm_compute. lia.
  - vm_compute. reflexivity.
  - intros r Hr. assert (r = 2) as -> by lia. vm_compute. reflexivity.
  - split; [exact Hraise |].
    destruct (Hcells 2 1 ltac:(vm_compute; lia)) as [Habove _].
    destruct (Hcells 4 1 ltac:(vm_compute; lia)) as [_ Hbelow].
    rewrite (Habove ltac:(lia)), (Hbelow ltac:(lia)).
    split; vm_compute; reflexivity.
Defined.

(** ** More on the directives *)

(** X6. A directive whose kind is neither "date" nor "currency" is passed
    over, whatever its key: the call is the call without it. *)
Theorem unknown_kind_ignored fr ws df F1 F2 col kind :
  kind ≠ "date" → kind ≠ "currency" →
  create_workbook fr ws df (F1 ++ (col, kind) :: F2) =
  create_workbook fr ws df (F1 ++ F2).
Proof.
  intros Hd Hc. unfold create_workbook. rewrite !format_columns_app.
  destruct (format_columns F1 _ []) as [[cc|e] df1]; [|done].
  cbn [format_columns]. by rewrite format_column_other.
Qed.

Lemma unknown_kind_ignored_witness :
  create_workbook some_repr sample_sheet sample_df
    ([("Amount", "currency")] ++ ("Nowhere", "percent") :: [("Payment_Date", "date")])
  = sample_run.
Proof.
  apply (unknown_kind_ignored some_repr sample_sheet sample_df
           [("Amount", "currency")] [("Payment_Date", "date")] "Nowhere" "percent").
  - discriminate.
  - discriminate.
Defined.

(** X7. A date directive whose key is the title-cased name of a column
    that is not a column of date/time values raises AttributeError, before
    anything is written to the worksheet; the DataFrame is left with its
    names title-cased. *)
Theorem date_directive_on_text fr ws df F j n l :
  frame df !! j = Some (n, ObjectSeries l) →
  create_workbook fr ws df ((str_title n, "date") :: F) =
  (Raise AttributeError, ws, set_columns (str_title <$> columns df) df).
Proof.
  intros Hj. unfold create_workbook. cbn [format_columns].
  set (df0 := set_columns (str_title <$> columns df) df).
  assert (frame df0 !! j = Some (str_title n, ObjectSeries l)) as Hj0.
  { unfold df0. by rewrite frame_set_columns, list_lookup_fmap, Hj. }
  assert (format_column (str_title n) "date" df0 [] = Raise AttributeError) as ->;
    [|done].
  unfold format_column, df_getitem. cbn [String.eqb Ascii.eqb Bool.eqb andb].
  assert (j ∈ positions (str_title n) (columns df0)) as Hpos
    by (apply elem_of_positions, columns_lookup; eauto).
  destruct (positions (str_title n) (columns df0)) as [|i [|i' rest]].
  - by apply elem_of_nil in Hpos.
  - apply list_elem_of_singleton in Hpos as <-. by rewrite Hj0.
  - done.
Qed.

Lemma date_directive_on_text_witness :
  (create_workbook some_repr sample_sheet sample_df [("Description", "date")]).1
  = (Raise AttributeError, sample_sheet).
Proof.
  exact (f_equal fst
           (date_directive_on_text some_repr sample_sheet sample_df [] 0 "Description"
              [VStr "Salary"; VStr "Groceries"; VStr "Rent"; VStr "Total"] eq_refl)).
Defined.

(** X8. A KeyError, an AttributeError or a TypeError comes from a
    directive, and the directives are run before any row is written: the
    worksheet is then exactly as it was before the call. *)
Theorem directive_failure_writes_nothing fr ws df F e :
  (create_workbook fr ws df F).1.1 = Raise e →
  e = KeyError ∨ e = AttributeError ∨ e = TypeError →
  (create_workbook fr ws df F).1.2 = ws.
Proof.
  intros Hraise He. pose proof (create_workbook_stages fr ws df F) as Hst.
  destruct (format_columns F _ []) as [[cc|e1] df1].
  - destruct Hst as (o & ws' & Hrun & _ & Hval & _). rewrite Hrun in Hraise.
    specialize (Hval e Hraise). subst e. by destruct He as [? | [? | ?]].
  - by rewrite Hst.
Qed.

Lemma directive_failure_writes_nothing_witness :
  (create_workbook some_repr sample_sheet amount_df [("amount", "currency")]).1.2
  = sample_sheet.
Proof.
  apply (directive_failure_writes_nothing some_repr sample_sheet amount_df
           [("amount", "currency")] KeyError).
  - vm_compute. reflexivity.
  - by left.
Defined.







(** ** A worksheet written from empty *)

Lemma rectangle_max R C m :
  rectangle R C m → 1 ≤ R → 1 ≤ C →
  max_index fst m = R ∧ max_index snd m = C.
Proof.
  intros Hrect HR HC.
  assert (m ≠ ∅) as Hne.
  { intros ->. destruct (proj2 (Hrect (1, 1))) as [x Hx]; [cbn; lia |].
    by rewrite lookup_empty in Hx. }
  split; apply Nat.le_antisymm.
  - destruct (max_index_attained fst m Hne) as (k & Hk & <-).
    apply Hrect in Hk. lia.
  - apply (max_index_le fst m (R, 1)). apply Hrect. cbn. lia.
  - destruct (max_index_attained snd m Hne) as (k & Hk & <-).
    apply Hrect in Hk. lia.
  - apply (max_index_le snd m (1, C)). apply Hrect. cbn. lia.
Qed.

Lemma transpose_length (data : list (list pyval)) (n : nat) :
  data ≠ [] → Forall (λ c, length c = n) data →
  length (transpose data) = n ∧
  Forall (λ row, length row = length data) (transpose data).
Proof.
  induction data as [|c rest IH]; [done |]. intros _ Hlen.
  apply Forall_cons in Hlen as [Hc Hrest].
  destruct rest as [|c' rest'].
  - cbn [transpose]. split; [by rewrite length_fmap |].
    apply Forall_fmap, Forall_forall. done.
  - destruct (IH ltac:(done) Hrest) as [Hl Hrows].
    change (transpose (c :: c' :: rest'))
      with (zip_with cons c (transpose (c' :: rest'))).
    split; [rewrite length_zip_with; lia |].
    apply Forall_forall. intros row (v & row' & -> & _ & Hrow')%elem_of_zip_with.
    rewrite Forall_forall in Hrows. cbn [length]. by rewrite (Hrows _ Hrow').
Qed.

Lemma dataframe_rows_length (df : DataFrame) :
  df_wf df → 1 ≤ length (columns df) →
  length (dataframe_to_rows df) = index_len df + 1 ∧
  Forall (λ row, length row = length (columns df)) (dataframe_to_rows df).
Proof.
  intros Hwf Hcols. unfold dataframe_to_rows.
  destruct (transpose_length (series_values <$> (frame df).*2) (index_len df))
    as [Hl Hrows].
  - intros Hnil. apply (f_equal length) in Hnil.
    unfold columns in Hcols. rewrite !length_fmap in *. cbn in Hnil. lia.
  - apply Forall_fmap, Forall_fmap, Forall_forall. intros ns Hns. by apply Hwf.
  - split; [cbn [length]; lia |]. apply Forall_cons. split.
    + by rewrite length_fmap.
    + rewrite !length_fmap in Hrows. unfold columns. by rewrite length_fmap.
Qed.

(** The rows of a DataFrame, appended to an empty worksheet, fill a
    rectangle. *)
Lemma append_rectangle (df : DataFrame) (ws : Worksheet) :
  df_wf df → 1 ≤ length (columns df) → cells ws = ∅ → current_row ws = 0 →
  rectangle (index_len df + 1) (length (columns df))
    (cells (foldl (λ w row, ws_append row w) ws (dataframe_to_rows df))).
Proof.
  intros Hwf Hcols Hempty Hrow [r c]. cbn [fst snd].
  destruct (dataframe_rows_length df Hwf Hcols) as [Hl Hrows].
  rewrite Forall_forall in Hrows.
  rewrite cells_append_all, Hrow, Hempty. cbn [Nat.add].
  destruct (dataframe_to_rows df !! (r - 1)) as [row|] eqn:Hr.
  - pose proof (lookup_lt_Some _ _ _ Hr) as Hlt.
    pose proof (Hrows row ltac:(by apply list_elem_of_lookup_2 in Hr)) as Hrl.
    case_decide as Hd.
    + rewrite fmap_is_Some. split; [intros _; lia |]. intros _.
      apply lookup_lt_is_Some. lia.
    + rewrite lookup_empty. split; [by intros [? ?] |]. intros ?. lia.
  - apply lookup_ge_None in Hr. rewrite lookup_empty.
    split; [by intros [? ?] |]. intros ?. lia.
Qed.

Lemma append_all_frame (rows : list (list pyval)) (ws : Worksheet) :
  title (foldl (λ w row, ws_append row w) ws rows) = title ws ∧
  tables (foldl (λ w row, ws_append row w) ws rows) = tables ws ∧
  column_dimensions (foldl (λ w row, ws_append row w) ws rows)
    = column_dimensions ws.
Proof.
  revert ws. induction rows as [|row rows IH]; intros ws; [done |].
  cbn [foldl]. destruct (IH (ws_append row ws)) as (-> & -> & ->). done.
Qed.

(** The width loop counts the texts only. *)
Lemma measure_all fr (vs : list pyval) (m : nat) :
  foldl (measure fr) m vs = Nat.max m (max_list (text_length <$> vs)).
Proof.
  revert m. induction vs as [|v vs IH]; intros m.
  - cbn. lia.
  - rewrite fmap_cons. cbn [foldl]. rewrite IH, measure_spec.
    change (max_list (?x :: ?l)) with (Nat.max x (max_list l)).
    destruct v; cbn [text_length]; lia.
Qed.

Lemma column_tuple_rectangle R C c ws :
  rectangle R C (cells ws) → 1 ≤ R → 1 ≤ c ≤ C → column_tuple c ws = ws.
Proof.
  intros Hrect HR Hc. rewrite column_tuple_fetch. apply fetch_id.
  destruct (rectangle_max R C _ Hrect HR ltac:(lia)) as [Hmr _].
  unfold max_row. rewrite Hmr.
  intros k (r & -> & Hr%elem_of_seq)%list_elem_of_fmap.
  apply Hrect. cbn. lia.
Qed.

Lemma set_number_format_idemp fmt x :
  set_number_format fmt (set_number_format fmt x) = set_number_format fmt x.
Proof. done. Qed.

(** [format_currency] on a rectangle: the cells of the column take the
    currency format, and nothing else changes. *)
Lemma format_currency_rectangle R C i c ws :
  rectangle R C (cells ws) → 1 ≤ R → 1 ≤ c ≤ C →
  column_index_from_string i = Ok c →
  ∃ ws', format_currency i ws = (Ok tt, ws') ∧
    title ws' = title ws ∧ tables ws' = tables ws ∧
    column_dimensions ws' = column_dimensions ws ∧
    ∀ r c', cells ws' !! (r, c') =
            if decide (c' = c)
            then set_number_format currency_format <$> cells ws !! (r, c')
            else cells ws !! (r, c').
Proof.
  intros Hrect HR Hc Hidx. unfold format_currency, ws_getitem.
  rewrite Hidx, (column_tuple_rectangle R C c ws Hrect HR Hc).
  eexists. split; [done |].
  destruct (update_all_frame (set_number_format currency_format)
              ((λ r, (r, c)) <$> seq 1 (max_row ws)) ws) as (Ht & _ & Htab & Hdim).
  cbn zeta in *. split_and!; [done | done | done |].
  intros r c'.
  rewrite cells_update_all by apply set_number_format_idemp.
  destruct (rectangle_max R C _ Hrect HR ltac:(lia)) as [Hmr _].
  unfold max_row. rewrite Hmr.
  destruct (decide (c' = c)) as [-> | Hne].
  - case_decide as Hin; [done |].
    destruct (cells ws !! (r, c)) as [x|] eqn:Hx; [|done].
    destruct Hin. apply list_elem_of_fmap. exists r. split; [done |].
    apply elem_of_seq. assert (is_Some (cells ws !! (r, c))) as Hs by eauto.
    apply Hrect in Hs. cbn in Hs. lia.
  - rewrite decide_False; [done |].
    intros (r' & [= -> ->] & _)%list_elem_of_fmap. done.
Qed.

Lemma rectangle_ext (R C : nat) (m m' : gmap (nat * nat) Cell) :
  rectangle R C m → (∀ k, is_Some (m' !! k) ↔ is_Some (m !! k)) →
  rectangle R C m'.
Proof. intros Hrect Hdom k. by rewrite Hdom. Qed.

(** The loop over the currency columns, on a rectangle. *)
Lemma currency_loop_rectangle R C cc idxs ws :
  rectangle R C (cells ws) → 1 ≤ R →
  Forall2 (λ letter c, column_index_from_string letter = Ok c ∧ 1 ≤ c ≤ C) cc idxs →
  ∃ ws', for_each format_currency cc ws = (Ok tt, ws') ∧
    title ws' = title ws ∧ tables ws' = tables ws ∧
    column_dimensions ws' = column_dimensions ws ∧
    ∀ r c, cells ws' !! (r, c) =
           if decide (c ∈ idxs)
           then set_number_format currency_format <$> cells ws !! (r, c)
           else cells ws !! (r, c).
Proof.
  intros Hrect HR Hcc. revert ws Hrect.
  induction Hcc as [|letter c cc idxs [Hidx Hc] _ IH]; intros ws Hrect.
  { exists ws. by split_and!. }
  destruct (format_currency_rectangle R C letter c ws Hrect HR Hc Hidx)
    as (ws1 & Hstep & Ht & Htab & Hdim & Hcells).
  destruct (IH ws1) as (ws' & Hloop & Ht' & Htab' & Hdim' & Hcells').
  { apply (rectangle_ext R C (cells ws)); [done |]. intros [r c'].
    rewrite Hcells. case_decide; [by rewrite fmap_is_Some | done]. }
  exists ws'. cbn [for_each]. rewrite Hstep.
  split_and!; [done | congruence | congruence | congruence |].
  intros r c'. rewrite Hcells', Hcells.
  destruct (decide (c' = c)) as [-> | Hne].
  - rewrite (decide_True (P := c ∈ c :: idxs)) by (by left).
    case_decide; [|done].
    destruct (cells ws !! (r, c)); [|done]. done.
  - destruct (decide (c' ∈ idxs)) as [Hin | Hnot].
    + rewrite decide_True by (by right). done.
    + rewrite decide_False; [done |]. by intros [? | ?]%elem_of_cons.
Qed.

Lemma get_column_letter_ok (n : nat) :
  1 ≤ n ≤ MAX_COLUMN_INDEX → ∃ letter, get_column_letter n = Ok letter.
Proof.
  intros Hn. unfold get_column_letter.
  destruct (Nat.leb_spec 1 n); [|lia].
  destruct (Nat.leb_spec n MAX_COLUMN_INDEX); [|lia]. by eexists.
Qed.

(** [adjust_column] on a rectangle: the width of the column is set from
    its texts, and nothing else changes. *)
Lemma adjust_column_rectangle fr R C col letter ws :
  rectangle R C (cells ws) → 1 ≤ R → 1 ≤ col ≤ C →
  get_column_letter col = Ok letter →
  adjust_column fr col ws =
  (Ok tt,
   set_width letter
     (adjusted_width
        (max_list (text_length <$> ((λ r, value (cell_at ws r col)) <$> seq 1 R))))
     ws).
Proof.
  intros Hrect HR Hc Hletter. unfold adjust_column, ws_getitem.
  rewrite Hletter, (column_letter_roundtrip _ _ Hletter).
  rewrite (column_tuple_rectangle R C col ws Hrect HR Hc).
  destruct (rectangle_max R C _ Hrect HR ltac:(lia)) as [Hmr _].
  unfold max_row. rewrite Hmr. do 3 f_equal.
  assert (∀ l m,
            foldl (λ m rc, measure fr m (value (cell_at ws rc.1 rc.2))) m
                  ((λ r, (r, col)) <$> l) =
            foldl (measure fr) m ((λ r, value (cell_at ws r col)) <$> l)) as ->
    by (intros l m; by rewrite !foldl_fmap).
  rewrite measure_all. lia.
Qed.

(** The loop over the column indices, on a rectangle. *)
Lemma width_loop_rectangle fr R C cols ws :
  rectangle R C (cells ws) → 1 ≤ R → C ≤ MAX_COLUMN_INDEX →
  NoDup cols → (∀ col, col ∈ cols → 1 ≤ col ≤ C) →
  ∃ ws', for_each (adjust_column fr) cols ws = (Ok tt, ws') ∧
    title ws' = title ws ∧ cells ws' = cells ws ∧ tables ws' = tables ws ∧
    (∀ col letter, col ∈ cols → get_column_letter col = Ok letter →
       column_dimensions ws' !! letter =
       Some (adjusted_width
               (max_list (text_length <$> column_values (cells ws) R col)))) ∧
    (∀ letter, (∀ col, col ∈ cols → get_column_letter col ≠ Ok letter) →
       column_dimensions ws' !! letter = column_dimensions ws !! letter).
Proof.
  intros Hrect HR HC Hnd Hcols. revert ws Hrect.
  induction cols as [|col cols IH]; intros ws Hrect.
  { exists ws. split_and!; try done. by intros col letter ?%elem_of_nil. }
  apply NoDup_cons in Hnd as [Hcol Hnd].
  pose proof (Hcols col ltac:(by left)) as Hc.
  destruct (get_column_letter_ok col ltac:(lia)) as [letter Hletter].
  pose proof (adjust_column_rectangle fr R C col letter ws Hrect HR Hc Hletter)
    as Hstep.
  set (w := adjusted_width _) in Hstep.
  destruct (IH Hnd ltac:(intros c ?; apply Hcols; by right)
              (set_width letter w ws) Hrect)
    as (ws' & Hloop & Ht & Hcells & Htab & Hset & Hframe).
  exists ws'. cbn [for_each]. rewrite Hstep.
  split_and!; [done | done | done | done | |].
  - intros col' letter' [-> | Hin]%elem_of_cons Hletter'.
    + rewrite Hletter in Hletter'. injection Hletter' as <-.
      rewrite Hframe.
      * cbn. by rewrite lookup_insert_eq.
      * intros c Hin Hc'. apply column_letter_roundtrip in Hc'.
        apply column_letter_roundtrip in Hletter. congruence.
    + by apply Hset.
  - intros letter' Hnone. rewrite Hframe.
    + cbn. rewrite lookup_insert_ne; [done |]. intros <-.
      by apply (Hnone col); [left |].
    + intros c Hin. apply Hnone. by right.
Qed.

(** The letters that the loop over the directives records are those of
    the positions of the currency columns. *)
Lemma format_columns_letters F df cc cc' df' idxs :
  format_columns F df cc = (Ok cc', df') →
  Forall2 (λ letter c, column_index_from_string letter = Ok c ∧
                       1 ≤ c ≤ length (columns df)) cc idxs →
  ∃ idxs',
    Forall2 (λ letter c, column_index_from_string letter = Ok c ∧
                         1 ≤ c ≤ length (columns df)) cc' idxs' ∧
    ∀ c, c ∈ idxs' ↔
         c ∈ idxs ∨
         ∃ col j, (col, "currency") ∈ F ∧ positions col (columns df) = [j] ∧
                  c = j + 1.
Proof.
  revert df cc idxs. induction F as [|[col f] F IH]; intros df cc idxs;
    cbn [format_columns].
  { intros [= <- <-] Hcc. exists idxs. split; [done |]. intros c. split; [by left |].
    intros [? | (col & j & Hin & _)]; [done | by apply elem_of_nil in Hin]. }
  destruct (format_column col f df cc) as [[df1 cc1]|e] eqn:Hstep; [|done].
  intros Hrest Hcc.
  pose proof (format_column_columns _ _ _ _ _ _ Hstep) as [Hcols _].
  destruct (String.eqb_spec f "currency") as [-> | Hf].
  - apply format_column_currency in Hstep as (_ & j & letter & Hpos & Hletter & ->).
    assert (j < length (columns df)) as Hj.
    { eapply lookup_lt_Some, elem_of_positions. rewrite Hpos. by left. }
    destruct (IH df1 (cc ++ [letter]) (idxs ++ [j + 1]) Hrest)
      as (idxs' & Hcc' & Hidxs').
    { rewrite Hcols. apply Forall2_app; [done |]. apply Forall2_cons_2; [|done].
      split; [by apply column_letter_roundtrip | lia]. }
    exists idxs'. rewrite Hcols in Hcc', Hidxs'. split; [done |].
    intros c. rewrite Hidxs', elem_of_app, list_elem_of_singleton. split.
    + intros [[? | ->] | (col' & j' & Hin & Hpos' & ->)].
      * by left.
      * right. exists col, j. split_and!; [by left | done | done].
      * right. exists col', j'. split_and!; [by right | done | done].
    + intros [? | (col' & j' & [[= ->] | Hin]%elem_of_cons & Hpos' & ->)].
      * by left; left.
      * rewrite Hpos in Hpos'. injection Hpos' as ->. by left; right.
      * right. by exists col', j'.
  - assert (cc1 = cc) as ->.
    { destruct (String.eqb_spec f "date") as [-> | Hd].
      - by apply format_column_date in Hstep as [-> _].
      - rewrite format_column_other in Hstep by done. congruence. }
    destruct (IH df1 cc idxs Hrest) as (idxs' & Hcc' & Hidxs').
    { by rewrite Hcols. }
    exists idxs'. rewrite Hcols in Hcc', Hidxs'. split; [done |].
    intros c. rewrite Hidxs'. split.
    + intros [? | (col' & j' & Hin & Hpos' & ->)]; [by left |].
      right. exists col', j'. split_and!; [by right | done | done].
    + intros [? | (col' & j' & [[= _ <-] | Hin]%elem_of_cons & Hpos' & ->)];
        [by left | done |].
      right. by exists col', j'.
Qed.

Lemma format_currency_frame i ws :
  title (format_currency i ws).2 = title ws ∧
  tables (format_currency i ws).2 = tables ws.
Proof.
  unfold format_currency, ws_getitem.
  destruct (column_index_from_string i) as [c|e]; cbn [snd]; [|done].
  pose proof (update_all_frame (set_number_format currency_format)
                ((λ r, (r, c)) <$> seq 1 (max_row ws)) (column_tuple c ws)) as Hupd.
  pose proof (fetch_frame ((λ r, (r, c)) <$> seq 1 (max_row ws)) ws) as Hfetch.
  rewrite <- column_tuple_fetch in Hfetch. cbn zeta in Hupd, Hfetch.
  destruct Hupd as (Ht & _ & Htab & _). destruct Hfetch as (Ht' & Htab' & _).
  split; congruence.
Qed.

Lemma adjust_column_frame fr col ws :
  title (adjust_column fr col ws).2 = title ws ∧
  tables (adjust_column fr col ws).2 = tables ws.
Proof.
  unfold adjust_column, ws_getitem.
  destruct (get_column_letter col) as [column|e]; cbn [snd]; [|done].
  destruct (column_index_from_string column) as [c|e]; cbn [snd]; [|done].
  pose proof (fetch_frame ((λ r, (r, c)) <$> seq 1 (max_row ws)) ws) as Hfetch.
  rewrite <- column_tuple_fetch in Hfetch. cbn zeta in Hfetch.
  destruct Hfetch as (Ht' & Htab' & _). done.
Qed.

(** A call that returns has declared one table, named by the title of the
    worksheet. *)
Lemma create_workbook_table fr ws df F ws' df' :
  create_workbook fr ws df F = (Ok tt, ws', df') →
  existsb (String.eqb (title ws)) (displayName <$> tables ws) = false ∧
  title ws' = title ws ∧
  ∃ last,
    get_column_letter
      (max_column (foldl (λ w row, ws_append row w) ws (dataframe_to_rows df')))
      = Ok last ∧
    tables ws' = tables ws ++ [table_of (title ws) last (index_len df)].
Proof.
  unfold create_workbook.
  destruct (format_columns F _ []) as [[cc|e] df1] eqn:Hfc; [|done].
  pose proof (format_columns_columns _ _ _ _ _ Hfc) as [_ Hlen].
  cbn zeta. set (ws1 := foldl _ ws (dataframe_to_rows df1)).
  destruct (append_all_frame (dataframe_to_rows df1) ws) as (Ht & Htab & _).
  fold ws1 in Ht, Htab.
  destruct (get_column_letter (max_column ws1)) as [last|e] eqn:Hlast; [|done].
  unfold add_table. cbn [displayName]. rewrite Ht, Htab.
  destruct (existsb _ _); [done |].
  set (ws2 := Build_Worksheet _ _ _ _ _).
  pose proof (for_each_preserves
                (λ w, title w = title ws ∧
                      tables w = tables ws ++ [table_of (title ws) last (index_len df)])
                format_currency cc ws2) as H23.
  destruct (for_each format_currency cc ws2) as [[[]|e] ws3]; [|done].
  pose proof (for_each_preserves
                (λ w, title w = title ws ∧
                      tables w = tables ws ++ [table_of (title ws) last (index_len df)])
                (adjust_column fr) (seq 1 (max_column ws3)) ws3) as H34.
  destruct (for_each (adjust_column fr) _ ws3) as [o ws4].
  intros [= -> -> ->]. split; [done |].
  cbn [snd] in *.
  assert (title ws3 = title ws ∧
          tables ws3 = tables ws ++ [table_of (title ws) last (index_len df)])
    as H3.
  { apply H23.
    - intros i w _ [<- <-]. by destruct (format_currency_frame i w) as [-> ->].
    - unfold ws2, table_of. cbn. by rewrite Hlen. }
  destruct H34 as [H4t H4tab]; [| exact H3 |].
  - intros col w _ [<- <-]. by destruct (adjust_column_frame fr col w) as [-> ->].
  - split; [done |]. by exists last.
Qed.

Lemma get_column_letter_bounds (n : nat) (letter : string) :
  get_column_letter n = Ok letter → 1 ≤ n ≤ MAX_COLUMN_INDEX.
Proof.
  unfold get_column_letter.
  destruct (Nat.leb_spec 1 n); destruct (Nat.leb_spec n MAX_COLUMN_INDEX);
    cbn; intros; try done; lia.
Qed.

Lemma column_values_ext (m m' : gmap (nat * nat) Cell) (R c : nat) :
  (∀ r, value <$> m' !! (r, c) = value <$> m !! (r, c)) →
  column_values m' R c = column_values m R c.
Proof.
  intros Hm. unfold column_values. apply list_fmap_ext. intros _ r _.
  specialize (Hm r). destruct (m' !! (r, c)), (m !! (r, c)); cbn in *; congruence.
Qed.

(** On an empty worksheet whose title names no table, once the directives
    have passed, the call returns: the rows fill a rectangle, the currency
    columns take their format and every column its width. *)
Lemma create_workbook_run fr ws df F cc df' :
  format_columns F (set_columns (str_title <$> columns df) df) [] = (Ok cc, df') →
  existsb (String.eqb (title ws)) (displayName <$> tables ws) = false →
  cells ws = ∅ → current_row ws = 0 → df_wf df →
  1 ≤ length (columns df) ≤ MAX_COLUMN_INDEX →
  let ws1 := foldl (λ w row, ws_append row w) ws (dataframe_to_rows df') in
  ∃ ws',
    create_workbook fr ws df F = (Ok tt, ws', df') ∧
    rectangle (index_len df + 1) (length (columns df)) (cells ws1) ∧
    (∃ idxs : list nat,
       (∀ c, c ∈ idxs ↔
             ∃ col j, (col, "currency") ∈ F ∧ positions col (columns df') = [j] ∧
                      c = j + 1) ∧
       ∀ r c, cells ws' !! (r, c) =
              if decide (c ∈ idxs)
              then set_number_format currency_format <$> cells ws1 !! (r, c)
              else cells ws1 !! (r, c)) ∧
    (∀ col letter, 1 ≤ col ≤ length (columns df) →
       get_column_letter col = Ok letter →
       column_dimensions ws' !! letter =
       Some (adjusted_width
               (max_list (text_length <$>
                            column_values (cells ws1) (index_len df + 1) col)))).
Proof.
  intros Hfc Hex Hempty Hrow Hwf Hcols ws1.
  pose proof (format_columns_columns _ _ _ _ _ Hfc) as [Hc1 Hlen].
  rewrite columns_set_columns in Hc1. cbn [index_len set_columns] in Hlen.
  assert (length (columns df') = length (columns df)) as Hlc
    by (by rewrite Hc1, length_fmap).
  assert (df_wf df') as Hwf'
    by (apply (format_columns_wf _ _ _ _ _ Hfc), df_wf_set_columns, Hwf).
  pose proof (append_rectangle df' ws Hwf' ltac:(lia) Hempty Hrow) as Hrect.
  fold ws1 in Hrect. rewrite Hlen, Hlc in Hrect.
  destruct (rectangle_max _ _ _ Hrect ltac:(lia) ltac:(lia)) as [Hmr Hmc].
  fold (max_column ws1) in Hmc.
  destruct (get_column_letter_ok (length (columns df)) Hcols) as [last Hlast].
  destruct (format_columns_letters F _ [] cc df' [] Hfc ltac:(constructor))
    as (idxs & Hcc & Hidxs).
  rewrite columns_set_columns, length_fmap in Hcc.
  rewrite columns_set_columns, <- Hc1 in Hidxs.
  destruct (append_all_frame (dataframe_to_rows df') ws) as (Ht & Htab & _).
  fold ws1 in Ht, Htab.
  unfold create_workbook. rewrite Hfc.
  cbv beta iota zeta. fold ws1. rewrite Hmc, Hlast.
  unfold add_table. cbn [displayName].
  rewrite Ht, Htab, Hex.
  set (ws2 := Build_Worksheet _ _ _ _ _).
  destruct (currency_loop_rectangle (index_len df + 1) (length (columns df))
              cc idxs ws2 Hrect ltac:(lia) Hcc)
    as (ws3 & Hloop3 & _ & _ & _ & Hcells3).
  rewrite Hloop3.
  assert (rectangle (index_len df + 1) (length (columns df)) (cells ws3)) as Hrect3.
  { apply (rectangle_ext _ _ (cells ws1)); [done |]. intros [r c].
    rewrite Hcells3. case_decide; [by rewrite fmap_is_Some | done]. }
  destruct (rectangle_max _ _ _ Hrect3 ltac:(lia) ltac:(lia)) as [_ Hmc3].
  fold (max_column ws3) in Hmc3. rewrite Hmc3.
  destruct (width_loop_rectangle fr (index_len df + 1) (length (columns df))
              (seq 1 (length (columns df))) ws3 Hrect3 ltac:(lia) ltac:(lia)
              (NoDup_seq _ _))
    as (ws4 & Hloop4 & _ & Hcells4 & _ & Hset & _).
  { intros col Hcol%elem_of_seq. lia. }
  rewrite Hloop4. exists ws4. split; [done |]. split; [done |]. split.
  - exists idxs. split.
    { intros c. rewrite Hidxs. split; [|by right].
      intros [Hnil | Hc]; [by apply elem_of_nil in Hnil | done]. }
    intros r c. rewrite Hcells4. apply Hcells3.
  - intros col letter Hcol Hletter.
    rewrite (Hset col letter); [|apply elem_of_seq; lia | done].
    do 4 f_equal. apply column_values_ext. intros r.
    rewrite Hcells3. case_decide; [|done].
    change (cells ws2) with (cells ws1). by destruct (cells ws1 !! (r, col)).
Qed.

(** The same, read from a call that has returned. *)
Lemma create_workbook_from_empty fr ws df F ws' df' :
  create_workbook fr ws df F = (Ok tt, ws', df') →
  cells ws = ∅ → current_row ws = 0 → df_wf df → 1 ≤ length (columns df) →
  let ws1 := foldl (λ w row, ws_append row w) ws (dataframe_to_rows df') in
  length (columns df) ≤ MAX_COLUMN_INDEX ∧
  rectangle (index_len df + 1) (length (columns df)) (cells ws1) ∧
  (∃ idxs : list nat,
     (∀ c, c ∈ idxs ↔
           ∃ col j, (col, "currency") ∈ F ∧ positions col (columns df') = [j] ∧
                    c = j + 1) ∧
     ∀ r c, cells ws' !! (r, c) =
            if decide (c ∈ idxs)
            then set_number_format currency_format <$> cells ws1 !! (r, c)
            else cells ws1 !! (r, c)) ∧
  (∀ col letter, 1 ≤ col ≤ length (columns df) →
     get_column_letter col = Ok letter →
     column_dimensions ws' !! letter =
     Some (adjusted_width
             (max_list (text_length <$>
                          column_values (cells ws1) (index_len df + 1) col)))).
Proof.
  intros Hrun Hempty Hrow Hwf Hcols ws1.
  destruct (create_workbook_ok _ _ _ _ _ _ Hrun) as (cc & Hfc & _).
  pose proof (format_columns_columns _ _ _ _ _ Hfc) as [Hc1 Hlen].
  rewrite columns_set_columns in Hc1. cbn [index_len set_columns] in Hlen.
  assert (df_wf df') as Hwf'
    by (apply (format_columns_wf _ _ _ _ _ Hfc), df_wf_set_columns, Hwf).
  assert (length (columns df') = length (columns df)) as Hlc
    by (by rewrite Hc1, length_fmap).
  pose proof (append_rectangle df' ws Hwf' ltac:(lia) Hempty Hrow) as Hrect.
  rewrite Hlen, Hlc in Hrect.
  destruct (rectangle_max _ _ _ Hrect ltac:(lia) Hcols) as [_ Hmc].
  destruct (create_workbook_table _ _ _ _ _ _ Hrun) as (Hex & _ & last & Hlast & _).
  unfold max_column in Hlast. rewrite Hmc in Hlast.
  apply get_column_letter_bounds in Hlast.
  split; [lia |].
  destruct (create_workbook_run fr ws df F cc df' Hfc Hex Hempty Hrow Hwf Hlast)
    as (ws'' & Hrun' & Hprops).
  rewrite Hrun in Hrun'. injection Hrun' as <-. exact Hprops.
Qed.

Lemma column_values_appended (df : DataFrame) (ws : Worksheet) (j : nat)
    (n : string) (s : Series) :
  df_wf df → current_row ws = 0 → frame df !! j = Some (n, s) →
  column_values
    (cells (foldl (λ w row, ws_append row w) ws (dataframe_to_rows df)))
    (index_len df + 1) (j + 1)
  = VStr n :: series_values s.
Proof.
  intros Hwf Hrow Hj.
  assert (length (series_values s) = index_len df) as Hlen
    by (apply (Hwf (n, s)); by apply list_elem_of_lookup_2 in Hj).
  apply list_eq. intros i. unfold column_values. rewrite list_lookup_fmap.
  destruct (decide (i < index_len df + 1)) as [Hi | Hi].
  - rewrite lookup_seq_lt by done. destruct i as [|i].
    + pose proof (cells_append_header df ws j n
                    ltac:(apply columns_lookup; eauto)) as Hcell.
      rewrite Hrow in Hcell. cbn [Nat.add] in Hcell.
      cbn [Nat.add fmap option_fmap option_map].
      by rewrite Hcell.
    + destruct (lookup_lt_is_Some_2 (series_values s) i ltac:(lia)) as [v Hv].
      pose proof (cells_append_frame df ws i j n s v Hwf Hj Hv) as Hcell.
      rewrite Hrow in Hcell. change (0 + 2 + i) with (S (S i)) in Hcell.
      change ((VStr n :: series_values s) !! S i) with (series_values s !! i).
      change (1 + S i) with (S (S i)). rewrite Hv.
      cbn [fmap option_fmap option_map]. by rewrite Hcell.
  - rewrite lookup_seq_ge by lia. symmetry. apply lookup_ge_None_2.
    cbn [length]. lia.
Qed.

(** ** What a call writes on an empty worksheet *)

(** X11. After a call that returns, on an empty worksheet and for a DataFrame
    with at least one column, the worksheet has one row more than the
    DataFrame has records and as many columns as the DataFrame, with a
    cell at every coordinate of this rectangle and at no other. *)
Theorem written_dimensions fr ws df F ws' df' :
  create_workbook fr ws df F = (Ok tt, ws', df') →
  cells ws = ∅ → current_row ws = 0 → df_wf df → 1 ≤ length (columns df) →
  max_row ws' = index_len df + 1 ∧ max_column ws' = length (columns df) ∧
  rectangle (index_len df + 1) (length (columns df)) (cells ws').
Proof.
  intros Hrun Hempty Hrow Hwf Hcols.
  destruct (create_workbook_from_empty _ _ _ _ _ _ Hrun Hempty Hrow Hwf Hcols)
    as (_ & Hrect & (idxs & _ & Hcells) & _).
  assert (rectangle (index_len df + 1) (length (columns df)) (cells ws')) as Hrect'.
  { apply (rectangle_ext _ _ _ _ Hrect). intros [r c].
    rewrite Hcells. case_decide; [by rewrite fmap_is_Some | done]. }
  destruct (rectangle_max _ _ _ Hrect' ltac:(lia) Hcols) as [Hr Hc]. done.
Qed.

Lemma written_dimensions_witness :
  max_row sample_written = 5 ∧ max_column sample_written = 3.
Proof.
  destruct (written_dimensions some_repr sample_sheet sample_df sample_formats
              sample_written sample_run.2 sample_run_ok eq_refl eq_refl sample_df_wf)
    as (Hr & Hc & _).
  - cbn. lia.
  - split; [exact Hr | exact Hc].
Defined.

(** X12. A call that returns, on an empty worksheet, declares one table
    more: its display name is the title of the worksheet, its range goes
    from A1 to the letter of the last column and the row after the last
    record, with one header row and no totals row. *)
Theorem table_declared fr ws df F ws' df' :
  create_workbook fr ws df F = (Ok tt, ws', df') →
  cells ws = ∅ → current_row ws = 0 → df_wf df → 1 ≤ length (columns df) →
  title ws' = title ws ∧
  ∃ last, get_column_letter (length (columns df)) = Ok last ∧
          tables ws' = tables ws ++ [table_of (title ws) last (index_len df)].
Proof.
  intros Hrun Hempty Hrow Hwf Hcols.
  destruct (create_workbook_from_empty _ _ _ _ _ _ Hrun Hempty Hrow Hwf Hcols)
    as (_ & Hrect & _).
  destruct (rectangle_max _ _ _ Hrect ltac:(lia) Hcols) as [_ Hmc].
  destruct (create_workbook_table _ _ _ _ _ _ Hrun) as (_ & Ht & last & Hlast & Htab).
  unfold max_column in Hlast. rewrite Hmc in Hlast.
  split; [done |]. by exists last.
Qed.

Lemma table_declared_witness :
  tables sample_written = [table_of "Sample_Sheet" "C" 4] ∧
  ref (table_of "Sample_Sheet" "C" 4) = "A1:C5".
Proof.
  destruct (table_declared some_repr sample_sheet sample_df sample_formats
              sample_written sample_run.2 sample_run_ok eq_refl eq_refl sample_df_wf)
    as (_ & last & Hlast & Htab).
  - cbn. lia.
  - injection Hlast as <-. split; [exact Htab | reflexivity].
Defined.

(** X13. A worksheet takes one call only: after a call that has returned, any
    further call on the same worksheet raises, the display name of its
    table being taken. *)
Theorem worksheet_used_once fr ws df F ws' df' df2 F2 :
  create_workbook fr ws df F = (Ok tt, ws', df') →
  ∃ e, (create_workbook fr ws' df2 F2).1.1 = Raise e.
Proof.
  intros Hrun.
  destruct (create_workbook_table _ _ _ _ _ _ Hrun) as (_ & Ht & last & _ & Htab).
  destruct (create_workbook fr ws' df2 F2) as [[[[]|e] ws''] df''] eqn:Hrun2;
    [|by exists e].
  destruct (create_workbook_table _ _ _ _ _ _ Hrun2) as (Hex & _).
  assert (existsb (String.eqb (title ws')) (displayName <$> tables ws') = true)
    as Htaken; [|congruence].
  apply existsb_eqb_elem_of. rewrite Htab, Ht, fmap_app.
  apply elem_of_app. right. by left.
Qed.

Lemma worksheet_used_once_witness :
  ∃ e, (create_workbook some_repr sample_written text_df []).1.1 = Raise e.
Proof.
  exact (worksheet_used_once some_repr sample_sheet sample_df sample_formats
           sample_written sample_run.2 text_df [] sample_run_ok).
Defined.



(** X15. After a call that returns on an empty worksheet, the width of
    every column is (m + 2) * 1.4, where m is the length of the longest
    text among the name of the column and the values that the DataFrame is
    left with; the values that are no text count for nothing. *)
Theorem widths_set fr ws df F ws' df' j n s letter :
  create_workbook fr ws df F = (Ok tt, ws', df') →
  cells ws = ∅ → current_row ws = 0 → df_wf df →
  frame df' !! j = Some (n, s) →
  get_column_letter (j + 1) = Ok letter →
  column_dimensions ws' !! letter
    = Some (adjusted_width (max_list (text_length <$> VStr n :: series_values s))).
Proof.
  intros Hrun Hempty Hrow Hwf Hj Hletter.
  destruct (create_workbook_ok _ _ _ _ _ _ Hrun) as (cc & Hfc & _).
  pose proof (format_columns_columns _ _ _ _ _ Hfc) as [Hc1 Hlen].
  cbn [index_len set_columns] in Hlen.
  assert (df_wf df') as Hwf'
    by (apply (format_columns_wf _ _ _ _ _ Hfc), df_wf_set_columns, Hwf).
  assert (j < length (columns df)) as Hjlt.
  { assert (columns df' !! j = Some n) as Hcol by (apply columns_lookup; eauto).
    apply lookup_lt_Some in Hcol.
    by rewrite Hc1, columns_set_columns, length_fmap in Hcol. }
  destruct (create_workbook_from_empty _ _ _ _ _ _ Hrun Hempty Hrow Hwf ltac:(lia))
    as (_ & _ & _ & Hwidths).
  rewrite (Hwidths (j + 1) letter ltac:(lia) Hletter).
  rewrite <- Hlen. by rewrite (column_values_appended df' ws j n s Hwf' Hrow Hj).
Qed.

Lemma widths_set_witness :
  column_dimensions sample_written !! "B" = Some (adjusted_width 6) ∧
  column_dimensions sample_written !! "C" = Some (adjusted_width 12).
Proof.
  split.
  - exact (widths_set some_repr sample_sheet sample_df sample_formats
             sample_written sample_run.2 1 "Amount"
             (ObjectSeries [VFloat 5000; VFloat (-150.5); VFloat (-1200);
                            VFloat 3649.5]) "B"
             sample_run_ok eq_refl eq_refl sample_df_wf eq_refl eq_refl).
  - exact (widths_set some_repr sample_sheet sample_df sample_formats
             sample_written sample_run.2 2 "Payment_Date"
             (ObjectSeries [VStr "10/13/2023"; VStr "10/14/2023";
                            VStr "10/15/2023"; VFloat nan]) "C"
             sample_run_ok eq_refl eq_refl sample_df_wf eq_refl eq_refl).
Defined.



(** X17. Of the caller's DataFrame, a call that returns changes the names and
    the columns named by a date directive, and nothing else: any other
    column keeps its values, and the number of records is the same. *)
Theorem dataset_kept fr ws df F ws' df' j n s :
  create_workbook fr ws df F = (Ok tt, ws', df') →
  frame df !! j = Some (n, s) → (str_title n, "date") ∉ F →
  frame df' !! j = Some (str_title n, s) ∧ index_len df' = index_len df.
Proof.
  intros Hrun Hj Hnot.
  destruct (create_workbook_ok _ _ _ _ _ _ Hrun) as (cc & Hfc & _).
  pose proof (format_columns_columns _ _ _ _ _ Hfc) as [_ Hlen].
  split; [|done].
  assert (frame (set_columns (str_title <$> columns df) df) !! j
          = Some (str_title n, s)) as Hj0
    by (by rewrite frame_set_columns, list_lookup_fmap, Hj).
  by destruct (format_columns_frame _ _ _ _ _ Hfc _ _ _ Hj0)
    as (s' & Hj' & [(Hdate & _) | (_ & ->)]).
Qed.

Lemma dataset_kept_witness :
  frame sample_run.2 !! 1
  = Some ("Amount",
          ObjectSeries [VFloat 5000; VFloat (-150.5); VFloat (-1200); VFloat 3649.5]).
Proof.
  refine (proj1 (dataset_kept some_repr sample_sheet sample_df sample_formats
                   sample_written sample_run.2 1 "Amount" _ sample_run_ok eq_refl _)).
  apply (bool_decide_unpack _). vm_compute. exact I.
Defined.

(** X4. The two calls of the script compose: after a call of
    [create_workbook] that returns on an empty worksheet, [format_totals]
    returns when the first column of the DataFrame is left with texts
    only. *)
Theorem format_totals_after_create fr ws df F ws' df' n s :
  create_workbook fr ws df F = (Ok tt, ws', df') →
  cells ws = ∅ → current_row ws = 0 → df_wf df →
  frame df' !! 0 = Some (n, s) →
  Forall (λ v, is_text v = true) (series_values s) →
  (format_totals ws').1 = Ok tt.
Proof.
  intros Hrun Hempty Hrow Hwf Hj Htext.
  destruct (create_workbook_ok _ _ _ _ _ _ Hrun) as (cc & Hfc & Hkept & _).
  pose proof (format_columns_columns _ _ _ _ _ Hfc) as [Hc1 Hlen].
  cbn [index_len set_columns] in Hlen.
  assert (df_wf df') as Hwf'
    by (apply (format_columns_wf _ _ _ _ _ Hfc), df_wf_set_columns, Hwf).
  assert (1 ≤ length (columns df)) as Hcols.
  { assert (columns df' !! 0 = Some n) as Hcol by (apply columns_lookup; eauto).
    apply lookup_lt_Some in Hcol.
    rewrite Hc1, columns_set_columns, length_fmap in Hcol. lia. }
  destruct (create_workbook_from_empty _ _ _ _ _ _ Hrun Hempty Hrow Hwf Hcols)
    as (_ & Hrect & (idxs & _ & Hcells) & _).
  assert (rectangle (index_len df + 1) (length (columns df)) (cells ws')) as Hrect'.
  { apply (rectangle_ext _ _ _ _ Hrect). intros [r c].
    rewrite Hcells. case_decide; [by rewrite fmap_is_Some | done]. }
  destruct (rectangle_max _ _ _ Hrect' ltac:(lia) Hcols) as [Hmr Hmc].
  unfold format_totals, max_row, max_column. rewrite Hmr, Hmc.
  destruct (length (columns df)) as [|k]; [lia |]. rewrite seq_S_head.
  apply format_rows_all_text. intros r Hr%elem_of_seq.
  assert (r - 2 < length (series_values s)) as Hlt.
  { pose proof (Hwf' (n, s) ltac:(by apply list_elem_of_lookup_2 in Hj)) as Hl.
    cbn [snd] in Hl. lia. }
  destruct (lookup_lt_is_Some_2 _ _ Hlt) as [v Hv].
  pose proof (cells_append_frame df' ws (r - 2) 0 n s v Hwf' Hj Hv) as Hcell.
  rewrite Hrow in Hcell. replace (0 + 2 + (r - 2)) with r in Hcell by lia.
  specialize (Hkept (r, 1)). change (0 + 1) with 1 in Hcell.
  rewrite Hcell in Hkept. destruct Hkept as (x' & Hx' & Hval & _).
  unfold cell_at. rewrite Hx'. cbn. rewrite Hval. cbn.
  rewrite Forall_forall in Htext. apply Htext.
  by apply list_elem_of_lookup_2 in Hv.
Qed.

Lemma format_totals_after_create_witness :
  (format_totals sample_written).1 = Ok tt.
Proof.
  apply (format_totals_after_create some_repr sample_sheet sample_df sample_formats
           sample_written sample_run.2 "Description"
           (ObjectSeries [VStr "Salary"; VStr "Groceries"; VStr "Rent"; VStr "Total"])
           sample_run_ok eq_refl eq_refl sample_df_wf eq_refl).
  apply (bool_decide_unpack _). vm_compute. exact I.
Defined.
